(** * atmos: layered CLI configuration (internal/config/config.go)

    A shallow embedding of the configuration loader of atmos and the
    properties of its resolution pipeline:

      defaults < system-dir file < home-dir file < current-dir file < ENV vars
      -> checkConfig -> absolute paths -> stack config file discovery.

    The Go code talks to the operating system and to three libraries
    (viper, doublestar, encoding/json).  Everything outside config.go is
    gathered in the record [World]; the functions of config.go are
    written over an arbitrary [World], in a small state-and-error monad
    whose state is the package variable [Config].  Diagnostic lines
    printed to standard output are not part of the model. *)

From Stdlib Require Import String Ascii List Bool Arith Lia.
Import ListNotations.
Local Open Scope list_scope.
Local Open Scope string_scope.

Set Implicit Arguments.

(* ===================================================================== *)
(** ** Go values: errors and results                                      *)
(* ===================================================================== *)

(** A Go [error] is represented by its message ([err.Error()]). *)
Definition error := string.

(** The pair [(x, err)] returned by a fallible Go function. *)
Inductive result (A : Type) : Type :=
| Ok (a : A)
| Err (e : error).
Arguments Ok {A} a.
Arguments Err {A} e.

Definition isErr {A} (r : result A) : bool :=
  match r with Ok _ => false | Err _ => true end.

Definition result_bind {A B} (r : result A) (k : A -> result B) : result B :=
  match r with
  | Ok a => k a
  | Err e => Err e
  end.

(** Line feed, as in the Go literals ["...\n"]. *)
Definition nl : string := String (ascii_of_nat 10) "".

(* ===================================================================== *)
(** ** package globals                                                    *)
(* ===================================================================== *)

Module g.
Definition DefaultStackConfigFileExtension : string := ".yaml".
Definition ConfigFileName : string := "atmos.yaml".
Definition SystemDirConfigFilePath : string := "/usr/local/etc/atmos".
Definition WindowsAppDataEnvVar : string := "LOCALAPPDATA".
End g.

(* ===================================================================== *)
(** ** package config: constants and the Configuration record             *)
(* ===================================================================== *)

Definition configFileName : string := "atmos.yaml".
Definition systemDirConfigFilePath : string := "/usr/local/etc/atmos".
Definition windowsAppDataEnvVar : string := "LOCALAPPDATA".

Record Configuration : Type := mkConfiguration {
  StackNamePattern : string;
  StackDirs : list string;
  StackDirsAbsolutePaths : list string;
  TerraformDir : string;
  TerraformDirAbsolutePath : string;
  StackConfigFiles : list string
}.

(** The value of [var Config Configuration] when the process starts. *)
Definition Config0 : Configuration :=
  mkConfiguration "" [] [] "" "" [].

Definition set_StackNamePattern (x : string) (c : Configuration) :=
  mkConfiguration x (StackDirs c) (StackDirsAbsolutePaths c)
    (TerraformDir c) (TerraformDirAbsolutePath c) (StackConfigFiles c).
Definition set_StackDirs (x : list string) (c : Configuration) :=
  mkConfiguration (StackNamePattern c) x (StackDirsAbsolutePaths c)
    (TerraformDir c) (TerraformDirAbsolutePath c) (StackConfigFiles c).
Definition set_StackDirsAbsolutePaths (x : list string) (c : Configuration) :=
  mkConfiguration (StackNamePattern c) (StackDirs c) x
    (TerraformDir c) (TerraformDirAbsolutePath c) (StackConfigFiles c).
Definition set_TerraformDir (x : string) (c : Configuration) :=
  mkConfiguration (StackNamePattern c) (StackDirs c) (StackDirsAbsolutePaths c)
    x (TerraformDirAbsolutePath c) (StackConfigFiles c).
Definition set_TerraformDirAbsolutePath (x : string) (c : Configuration) :=
  mkConfiguration (StackNamePattern c) (StackDirs c) (StackDirsAbsolutePaths c)
    (TerraformDir c) x (StackConfigFiles c).
Definition set_StackConfigFiles (x : list string) (c : Configuration) :=
  mkConfiguration (StackNamePattern c) (StackDirs c) (StackDirsAbsolutePaths c)
    (TerraformDir c) (TerraformDirAbsolutePath c) x.

(* ===================================================================== *)
(** ** viper: the layered key-value store                                 *)
(* ===================================================================== *)

(** A [map[string]interface{}] as far as [Configuration] can see it: the
    three keys that carry a [mapstructure] tag, each absent or bound to
    a value of the field's type (a sequence of strings for [StackDirs],
    a string for the other two).  Other keys of a document never reach
    [Config] and are left out. *)
Record ConfigMap : Type := mkConfigMap {
  key_StackDirs : option (list string);
  key_TerraformDir : option string;
  key_StackNamePattern : option string
}.

Module viper.

(** [v.config], the store all merges go to. *)
Definition Viper := ConfigMap.

Definition New : Viper := mkConfigMap None None None.

(** One key of a merge: a key bound in the incoming map replaces the
    binding of the store, a key absent from it leaves the store alone. *)
Definition mergeKey {A} (src tgt : option A) : option A :=
  match src with
  | Some sv => Some sv
  | None => tgt
  end.

(** [v.MergeConfigMap(cfg)]; its error is always nil. *)
Definition MergeConfigMap (cfg : ConfigMap) (v : Viper) : result Viper :=
  Ok (mkConfigMap
        (mergeKey (key_StackDirs cfg) (key_StackDirs v))
        (mergeKey (key_TerraformDir cfg) (key_TerraformDir v))
        (mergeKey (key_StackNamePattern cfg) (key_StackNamePattern v))).

(** Decoding one tagged field: a key of the store is written to the
    field, a key the store lacks leaves the field as it is. *)
Definition decodeField {A} (k : option A) (old : A) : A :=
  match k with
  | Some x => x
  | None => old
  end.

(** [v.Unmarshal(&Config)], fields in declaration order. *)
Definition Unmarshal (v : Viper) (c : Configuration) : result Configuration :=
  Ok (mkConfiguration
        (decodeField (key_StackNamePattern v) (StackNamePattern c))
        (decodeField (key_StackDirs v) (StackDirs c))
        (StackDirsAbsolutePaths c)
        (decodeField (key_TerraformDir v) (TerraformDir c))
        (TerraformDirAbsolutePath c)
        (StackConfigFiles c)).

End viper.

(** [defaultConfig], the built-in lowest-priority layer. *)
Definition defaultConfig : ConfigMap :=
  mkConfigMap
    (* "StackDirs" *)        (Some ["./stacks/*"])
    (* "TerraformDir" *)     (Some "./components/terraform")
    (* "StackNamePattern" *) (Some "environment-stage").

(* ===================================================================== *)
(** ** The world outside config.go                                        *)
(* ===================================================================== *)

(** What a run of the program finds around it.  [os_Open] hands out the
    bytes of a file; [yaml_Decode] is the decoding viper applies to them
    inside [MergeConfig] (configuration type "yaml"). *)
Record World : Type := mkWorld {
  runtime_GOOS : string;
  os_LookupEnv : string -> option string;
  homedir_Dir : result string;
  os_Getwd : result string;
  u_FileExists : string -> bool;
  os_Open : string -> result string;
  yaml_Decode : string -> result ConfigMap;
  path_Join : list string -> string;
  filepath_Abs : string -> result string;
  doublestar_Glob : string -> result (list string);
  json_MarshalIndent : list string -> string
}.

(** [os.Getenv]: the value of the variable, empty when it is not set. *)
Definition os_Getenv (w : World) (key : string) : string :=
  match os_LookupEnv w key with
  | Some val => val
  | None => ""
  end.

(** [v.MergeConfig(reader)]: decode the reader, then merge the map. *)
Definition viper_MergeConfig (w : World) (reader : string) (v : viper.Viper)
  : result viper.Viper :=
  result_bind (yaml_Decode w reader) (fun cfg => viper.MergeConfigMap cfg v).

(* ===================================================================== *)
(** ** Library functions on strings and paths                             *)
(* ===================================================================== *)

(** [strings.Split(s, sep)] for a one-byte separator, the only way
    config.go calls it: the pieces of [s] between the separators, in
    order; [n] separators give [n + 1] pieces. *)
Fixpoint strings_Split (s : string) (sep : ascii) : list string :=
  match s with
  | EmptyString => [""]
  | String c rest =>
      if Ascii.eqb c sep then "" :: strings_Split rest sep
      else match strings_Split rest sep with
           | piece :: pieces => String c piece :: pieces
           | [] => [String c ""]
           end
  end.

(** [strings.Join(elems, sep)]. *)
Fixpoint strings_Join (elems : list string) (sep : string) : string :=
  match elems with
  | [] => ""
  | [e] => e
  | e :: rest => e ++ sep ++ strings_Join rest sep
  end.

(** [strings.Repeat(s, count)]. *)
Fixpoint strings_Repeat (s : string) (count : nat) : string :=
  match count with
  | 0 => ""
  | S n => s ++ strings_Repeat s n
  end.

(** [os.IsPathSeparator]: the slash, and the backslash too on Windows. *)
Definition os_IsPathSeparator (w : World) (c : ascii) : bool :=
  Ascii.eqb c "/"
  || (String.eqb (runtime_GOOS w) "windows" && Ascii.eqb c (ascii_of_nat 92)).

(** The loop of [filepath.Ext], run over the bytes of the path from the
    last one backwards; [tail] holds the bytes already passed. *)
Fixpoint ext_scan (w : World) (backwards tail : list ascii) : string :=
  match backwards with
  | [] => ""
  | c :: before =>
      if os_IsPathSeparator w c then ""
      else if Ascii.eqb c "." then string_of_list_ascii (c :: tail)
      else ext_scan w before (c :: tail)
  end.

(** [filepath.Ext(path)]: the suffix that starts at the last dot of the
    last element of [path], empty when that element has no dot. *)
Definition filepath_Ext (w : World) (path : string) : string :=
  ext_scan w (rev (list_ascii_of_string path)) [].

Module u.

(** [u.FileExists] is a field of [World]. *)
Definition FileExists (w : World) (path : string) : bool := u_FileExists w path.

(** Modelled from the spec: [ConvertPathsToAbsolutePaths] of package
    utils, which is not among the sources.  Each entry is made
    absolute in turn, order kept; the first failure is returned. *)
Fixpoint ConvertPathsToAbsolutePaths (w : World) (paths : list string)
  : result (list string) :=
  match paths with
  | [] => Ok []
  | p :: rest =>
      result_bind (filepath_Abs w p) (fun absPath =>
      result_bind (ConvertPathsToAbsolutePaths w rest) (fun res =>
      Ok (absPath :: res)))
  end.

End u.

(* ===================================================================== *)
(** ** The monad of config.go                                             *)
(* ===================================================================== *)

(** A computation reads and writes the package variable [Config] and
    ends with a value or with an error.  An error stops the computation
    but keeps what was written to [Config] before it. *)
Definition M (A : Type) : Type := Configuration -> result A * Configuration.

Definition ret {A} (a : A) : M A := fun c => (Ok a, c).

Definition raise {A} (e : error) : M A := fun c => (Err e, c).

Definition bind {A B} (m : M A) (k : A -> M B) : M B :=
  fun c =>
    match m c with
    | (Ok a, c') => k a c'
    | (Err e, c') => (Err e, c')
    end.

(** A fallible call that leaves [Config] alone: [x, err := f(); if err
    != nil { return err }]. *)
Definition lift {A} (r : result A) : M A := fun c => (r, c).

Definition get : M Configuration := fun c => (Ok c, c).

Definition put (c : Configuration) : M unit := fun _ => (Ok tt, c).

Declare Scope go_scope.
Delimit Scope go_scope with go.
Notation "x <- m ;; k" := (bind m (fun x => k))
  (at level 61, m at next level, right associativity) : go_scope.
Notation "m ;; k" := (bind m (fun _ => k))
  (at level 61, right associativity) : go_scope.
Local Open Scope go_scope.

(* ===================================================================== *)
(** ** config.go                                                          *)
(* ===================================================================== *)

(** [processConfigFile(path, v)].  The store behind the pointer [v] is
    returned: unchanged when there is no file, merged when there is. *)
Definition processConfigFile (w : World) (path : string) (v : viper.Viper)
  : result viper.Viper :=
  if negb (u.FileExists w path) then
    Ok v
  else
    result_bind (os_Open w path) (fun reader =>
    result_bind (viper_MergeConfig w reader v) (fun v' =>
    Ok v')).

(** [processEnvVars()]. *)
Definition processEnvVars (w : World) : M unit :=
  Config <- get ;;
  let stackDirs := os_Getenv w "ATMOS_STACK_DIRS" in
  let Config :=
    if (0 <? String.length stackDirs)%nat
    then set_StackDirs (strings_Split stackDirs ",") Config
    else Config in
  let terraformDir := os_Getenv w "ATMOS_TERRAFORM_DIR" in
  let Config :=
    if (0 <? String.length terraformDir)%nat
    then set_TerraformDir terraformDir Config
    else Config in
  let stackNamePattern := os_Getenv w "ATMOS_STACK_NAME_PATTERN" in
  let Config :=
    if (0 <? String.length stackNamePattern)%nat
    then set_StackNamePattern stackNamePattern Config
    else Config in
  put Config.

(** [checkConfig()]. *)
Definition checkConfig : M unit :=
  Config <- get ;;
  if (List.length (StackDirs Config) <? 1)%nat then
    raise "At least one path to stack config must be provided in 'StackDirs' or 'ATMOS_STACK_DIRS' ENV variable"
  else if (String.length (TerraformDir Config) <? 1)%nat then
    raise "Terraform dir must be provided in 'TerraformDir' or 'ATMOS_TERRAFORM_DIR' ENV variable"
  else if (String.length (StackNamePattern Config) <? 1)%nat then
    raise "Stack name pattern must be provided in 'StackNamePattern' or 'ATMOS_STACK_NAME_PATTERN' ENV variable"
  else
    ret tt.

(** The body of the loop of [findAllStackConfigsInPaths], from the
    pattern [p] and the matches found so far to the matches after it. *)
Definition findInPath (w : World) (res : list string) (p : string)
  : result (list string) :=
  let ext := filepath_Ext w p in
  let pathWithExt :=
    if String.eqb ext "" then p ++ g.DefaultStackConfigFileExtension else p in
  result_bind (doublestar_Glob w pathWithExt) (fun matches =>
  if (0 <? List.length matches)%nat then Ok (res ++ matches)%list else Ok res).

(** [findAllStackConfigsInPaths(pathGlobs)]: the loop, started with
    [res := []string{}]. *)
Fixpoint findAllFrom (w : World) (res : list string) (pathGlobs : list string)
  : result (list string) :=
  match pathGlobs with
  | [] => Ok res
  | p :: rest => result_bind (findInPath w res p) (fun res' => findAllFrom w res' rest)
  end.

Definition findAllStackConfigsInPaths (w : World) (pathGlobs : list string)
  : result (list string) :=
  findAllFrom w [] pathGlobs.

(** [InitConfig()]. *)
Definition InitConfig (w : World) : M unit :=
  let v := viper.New in
  (* Add default config *)
  v <- lift (viper.MergeConfigMap defaultConfig v) ;;
  (* Process config in system folder *)
  let configFilePath1 :=
    if String.eqb (runtime_GOOS w) "windows" then
      let appDataDir := os_Getenv w windowsAppDataEnvVar in
      if (0 <? String.length appDataDir)%nat then appDataDir else ""
    else systemDirConfigFilePath in
  v <- (if (0 <? String.length configFilePath1)%nat then
          let configFile1 := path_Join w [configFilePath1; configFileName] in
          lift (processConfigFile w configFile1 v)
        else ret v) ;;
  (* Process config in user's HOME dir *)
  configFilePath2 <- lift (homedir_Dir w) ;;
  let configFile2 := path_Join w [configFilePath2; ".atmos"; configFileName] in
  v <- lift (processConfigFile w configFile2 v) ;;
  (* Process config in the current dir *)
  configFilePath3 <- lift (os_Getwd w) ;;
  let configFile3 := path_Join w [configFilePath3; configFileName] in
  v <- lift (processConfigFile w configFile3 v) ;;
  Config <- get ;;
  Config <- lift (viper.Unmarshal v Config) ;;
  put Config ;;
  (* Process ENV vars *)
  processEnvVars w ;;
  (* Check config *)
  checkConfig ;;
  (* Convert all stack dirs to absolute paths *)
  Config <- get ;;
  absPaths <- lift (u.ConvertPathsToAbsolutePaths w (StackDirs Config)) ;;
  put (set_StackDirsAbsolutePaths absPaths Config) ;;
  (* Convert terraform dir to absolute path *)
  Config <- get ;;
  terraformDirAbsPath <- lift (filepath_Abs w (TerraformDir Config)) ;;
  put (set_TerraformDirAbsolutePath terraformDirAbsPath Config) ;;
  (* Find all stack config files in the provided paths *)
  stackConfigFiles <- lift (findAllStackConfigsInPaths w absPaths) ;;
  if (List.length stackConfigFiles <? 1)%nat then
    let j := json_MarshalIndent w absPaths in
    let errorMessage :=
      "No config files found in any of the provided path globs:" ++ nl ++ j ++ nl in
    raise errorMessage
  else
    Config <- get ;;
    put (set_StackConfigFiles stackConfigFiles Config) ;;
    ret tt.

(* ===================================================================== *)
(** ** The stages of InitConfig                                           *)
(* ===================================================================== *)

(** The three candidate files, as [InitConfig] computes their paths.
    There is no system candidate on Windows without [LOCALAPPDATA]. *)
Definition systemConfigFile (w : World) : option string :=
  let configFilePath1 :=
    if String.eqb (runtime_GOOS w) "windows" then
      let appDataDir := os_Getenv w windowsAppDataEnvVar in
      if (0 <? String.length appDataDir)%nat then appDataDir else ""
    else systemDirConfigFilePath in
  if (0 <? String.length configFilePath1)%nat
  then Some (path_Join w [configFilePath1; configFileName])
  else None.

Definition homeConfigFile (w : World) (home : string) : string :=
  path_Join w [home; ".atmos"; configFileName].

Definition currentConfigFile (w : World) (cwd : string) : string :=
  path_Join w [cwd; configFileName].

(** What one configuration source contributes: the decoded document of
    a file that exists, nothing for a file that does not. *)
Definition fileLayer (w : World) (path : string) : result ConfigMap :=
  if u.FileExists w path
  then result_bind (os_Open w path) (yaml_Decode w)
  else Ok viper.New.

Definition systemLayer (w : World) : result ConfigMap :=
  match systemConfigFile w with
  | Some path => fileLayer w path
  | None => Ok viper.New
  end.

(** The environment layer: a variable counts when its value is not empty. *)
Definition envValue (w : World) (name : string) : option string :=
  let val := os_Getenv w name in
  if (0 <? String.length val)%nat then Some val else None.

Definition envStackDirs (w : World) : option (list string) :=
  option_map (fun val => strings_Split val ",") (envValue w "ATMOS_STACK_DIRS").

(** The value of the first source, highest priority first, that sets the
    key; every key is set by the defaults at the latest. *)
Fixpoint firstSet {A} (sources : list (option A)) (default : A) : A :=
  match sources with
  | [] => default
  | Some x :: _ => x
  | None :: lower => firstSet lower default
  end.

(** Lines 64-118 of [InitConfig]: the store after the defaults and the
    three candidate files. *)
Definition mergeSources (w : World) : result viper.Viper :=
  result_bind (viper.MergeConfigMap defaultConfig viper.New) (fun v =>
  result_bind (match systemConfigFile w with
               | Some configFile1 => processConfigFile w configFile1 v
               | None => Ok v
               end) (fun v =>
  result_bind (homedir_Dir w) (fun configFilePath2 =>
  result_bind (processConfigFile w (homeConfigFile w configFilePath2) v) (fun v =>
  result_bind (os_Getwd w) (fun configFilePath3 =>
  processConfigFile w (currentConfigFile w configFilePath3) v))))).

(** Lines 122-128: decoding the store into [Config], then the ENV vars. *)
Definition populate (w : World) (v : viper.Viper) : M unit :=
  Config <- get ;;
  Config <- lift (viper.Unmarshal v Config) ;;
  put Config ;;
  processEnvVars w.

(** Lines 136-172: absolute paths and stack config file discovery. *)
Definition normalizeAndDiscover (w : World) : M unit :=
  Config <- get ;;
  absPaths <- lift (u.ConvertPathsToAbsolutePaths w (StackDirs Config)) ;;
  put (set_StackDirsAbsolutePaths absPaths Config) ;;
  Config <- get ;;
  terraformDirAbsPath <- lift (filepath_Abs w (TerraformDir Config)) ;;
  put (set_TerraformDirAbsolutePath terraformDirAbsPath Config) ;;
  stackConfigFiles <- lift (findAllStackConfigsInPaths w absPaths) ;;
  if (List.length stackConfigFiles <? 1)%nat then
    raise ("No config files found in any of the provided path globs:"
           ++ nl ++ json_MarshalIndent w absPaths ++ nl)
  else
    Config <- get ;;
    put (set_StackConfigFiles stackConfigFiles Config) ;;
    ret tt.

(** The record after the ENV vars, written out field by field. *)
Definition populated (w : World) (v : viper.Viper) (c : Configuration)
  : Configuration :=
  mkConfiguration
    (firstSet [envValue w "ATMOS_STACK_NAME_PATTERN"; key_StackNamePattern v]
       (StackNamePattern c))
    (firstSet [envStackDirs w; key_StackDirs v] (StackDirs c))
    (StackDirsAbsolutePaths c)
    (firstSet [envValue w "ATMOS_TERRAFORM_DIR"; key_TerraformDir v]
       (TerraformDir c))
    (TerraformDirAbsolutePath c)
    (StackConfigFiles c).

(* ===================================================================== *)
(** ** Concrete worlds                                                    *)
(* ===================================================================== *)

(** Small machines on which the functions above can be run: an
    environment, a home and a working directory, and a flat list of
    regular files.  Paths are slash-separated and already clean. *)
Module Example.

Fixpoint lookup {A} (k : string) (l : list (string * A)) : option A :=
  match l with
  | [] => None
  | (k', x) :: rest => if String.eqb k k' then Some x else lookup k rest
  end.

Definition mem (k : string) (l : list string) : bool :=
  existsb (String.eqb k) l.

(** Glob matching of a whole path: [*] stands for any run of bytes
    inside one path element, [?] for one such byte, any other byte
    for itself. *)
Fixpoint globMatch (pattern : list ascii) : list ascii -> bool :=
  match pattern with
  | [] => fun name => match name with [] => true | _ :: _ => false end
  | p :: pattern' =>
      if Ascii.eqb p "*" then
        fix star (name : list ascii) : bool :=
          globMatch pattern' name
          || match name with
             | [] => false
             | c :: name' => negb (Ascii.eqb c "/") && star name'
             end
      else
        fun name =>
          match name with
          | [] => false
          | c :: name' =>
              (if Ascii.eqb p "?" then negb (Ascii.eqb c "/") else Ascii.eqb c p)
              && globMatch pattern' name'
          end
  end.

Record Machine : Type := mkMachine {
  goos : string;
  environ : list (string * string);
  home : result string;
  cwd : result string;
  (** regular files in directory order: path and bytes *)
  files : list (string * string);
  (** files that exist but cannot be opened *)
  locked : list string;
  (** the byte strings that are YAML documents, with their decoding *)
  documents : list (string * ConfigMap)
}.

Definition Open (m : Machine) (path : string) : result string :=
  if mem path (locked m) then Err ("open " ++ path ++ ": permission denied")
  else match lookup path (files m) with
       | Some bytes => Ok bytes
       | None => Err ("open " ++ path ++ ": no such file or directory")
       end.

Definition Decode (m : Machine) (bytes : string) : result ConfigMap :=
  match lookup bytes (documents m) with
  | Some cfg => Ok cfg
  | None => Err "While parsing config: yaml: did not find expected key"
  end.

Definition Join (elems : list string) : string := strings_Join elems "/".

Definition Abs (m : Machine) (path : string) : result string :=
  match path with
  | String "/" _ => Ok path
  | _ =>
      match cwd m with
      | Err e => Err e
      | Ok dir =>
          match path with
          | EmptyString => Ok dir
          | String "." (String "/" rest) => Ok (dir ++ "/" ++ rest)
          | _ => Ok (dir ++ "/" ++ path)
          end
      end
  end.

Definition Glob (m : Machine) (pattern : string) : result (list string) :=
  Ok (filter (fun name => globMatch (list_ascii_of_string pattern)
                            (list_ascii_of_string name))
        (map fst (files m))).

Definition quote : string := String (ascii_of_nat 34) "".

(** Indented JSON of a list of strings that need no escaping. *)
Definition MarshalIndent (l : list string) : string :=
  match l with
  | [] => "[]"
  | _ => "[" ++ nl
         ++ strings_Join (map (fun s => "  " ++ quote ++ s ++ quote) l) ("," ++ nl)
         ++ nl ++ "]"
  end.

Definition world (m : Machine) : World :=
  mkWorld (goos m)
    (fun key => lookup key (environ m))
    (home m)
    (cwd m)
    (fun path => mem path (map fst (files m)))
    (Open m)
    (Decode m)
    Join
    (Abs m)
    (Glob m)
    MarshalIndent.

(** A Linux machine with no configuration file at all and one stack
    file under the default stack directory. *)
Definition bare : Machine :=
  mkMachine "linux" [] (Ok "/home/dev") (Ok "/work")
    [("/work/stacks/dev.yaml", "vars: {}")] [] [].

(** The same machine with a configuration file at each of the three
    locations, each setting fewer keys than the one before. *)
Definition layered : Machine :=
  mkMachine "linux" [] (Ok "/home/dev") (Ok "/work")
    [("/usr/local/etc/atmos/atmos.yaml", "system");
     ("/home/dev/.atmos/atmos.yaml", "home");
     ("/work/atmos.yaml", "current");
     ("/work/cur/a.yaml", "vars: {}");
     ("/work/cur/b.yaml", "vars: {}")]
    []
    [("system", mkConfigMap (Some ["./sys/*"]) (Some "./sys-tf") (Some "sys-pattern"));
     ("home", mkConfigMap (Some ["./home/*"]) (Some "./home-tf") None);
     ("current", mkConfigMap (Some ["./cur/*"]) None None)].

Definition export (key val : string) (m : Machine) : Machine :=
  mkMachine (goos m) ((key, val) :: environ m) (home m) (cwd m)
    (files m) (locked m) (documents m).

Definition addFile (path bytes : string) (m : Machine) : Machine :=
  mkMachine (goos m) (environ m) (home m) (cwd m)
    (files m ++ [(path, bytes)]) (locked m) (documents m).

Definition lock (path : string) (m : Machine) : Machine :=
  mkMachine (goos m) (environ m) (home m) (cwd m)
    (files m) (path :: locked m) (documents m).

(** A working directory that holds nothing but [fixtures/stacks/x.yaml]. *)
Definition fixtures : Machine :=
  mkMachine "linux" [] (Ok "/home/dev") (Ok "/work")
    [("/work/fixtures/stacks/x.yaml", "vars: {}")] [] [].

End Example.

(* ===================================================================== *)
(** ** Notions used to state the properties                               *)
(* ===================================================================== *)

(** Two records with the same three configurable fields. *)
Definition sameSettings (c c' : Configuration) : Prop :=
  StackDirs c' = StackDirs c /\
  TerraformDir c' = TerraformDir c /\
  StackNamePattern c' = StackNamePattern c.

(** [hasByte c s]: the byte [c] occurs in [s]. *)
Fixpoint hasByte (c : ascii) (s : string) : bool :=
  match s with
  | EmptyString => false
  | String a rest => Ascii.eqb a c || hasByte c rest
  end.

(** [mentions msg part]: the message contains [part]. *)
Definition mentions (msg part : string) : Prop :=
  exists before after : string, msg = before ++ part ++ after.

(** The pattern [findAllStackConfigsInPaths] hands to the glob library
    for the path glob [p]. *)
Definition pathWithExt (w : World) (p : string) : string :=
  if String.eqb (filepath_Ext w p) "" then p ++ ".yaml" else p.

(** The same world with another process environment. *)
Definition withEnv (env : string -> option string) (w : World) : World :=
  mkWorld (runtime_GOOS w) env (homedir_Dir w) (os_Getwd w) (u_FileExists w)
    (os_Open w) (yaml_Decode w) (path_Join w) (filepath_Abs w)
    (doublestar_Glob w) (json_MarshalIndent w).

(** [os.Setenv(key, val)] and [os.Unsetenv(key)] before the run. *)
Definition setenv (key val : string) (w : World) : World :=
  withEnv (fun k => if String.eqb k key then Some val else os_LookupEnv w k) w.

Definition unsetenv (key : string) (w : World) : World :=
  withEnv (fun k => if String.eqb k key then None else os_LookupEnv w k) w.

(** [strings.Count(s, sep)] for a one-byte separator. *)
Fixpoint strings_Count (s : string) (sep : ascii) : nat :=
  match s with
  | EmptyString => 0
  | String c rest =>
      if Ascii.eqb c sep then S (strings_Count rest sep)
      else strings_Count rest sep
  end.

(** Lines 64-96 of [InitConfig]: the store after the defaults and the
    system-dir candidate. *)
Definition mergeSystem (w : World) : result viper.Viper :=
  match systemConfigFile w with
  | Some configFile1 => processConfigFile w configFile1 defaultConfig
  | None => Ok defaultConfig
  end.

(** A machine whose home directory cannot be resolved, and one whose
    working directory cannot. *)
Definition homeless : Example.Machine :=
  Example.mkMachine "linux" [] (Err "$HOME is not defined") (Ok "/work")
    [("/work/stacks/dev.yaml", "vars: {}")] [] [].

Definition adrift : Example.Machine :=
  Example.mkMachine "linux" [] (Ok "/home/dev") (Err "getwd: no such file or directory")
    [("/home/dev/.atmos/atmos.yaml", "home")] []
    [("home", mkConfigMap None (Some "./home-tf") None)].

(** The same world with a glob library that rejects a pattern with an
    opening bracket, as an unterminated character class is rejected. *)
Definition withStrictGlob (w : World) : World :=
  mkWorld (runtime_GOOS w) (os_LookupEnv w) (homedir_Dir w) (os_Getwd w)
    (u_FileExists w) (os_Open w) (yaml_Decode w) (path_Join w) (filepath_Abs w)
    (fun pattern =>
       if hasByte "[" pattern then Err "syntax error in pattern"
       else doublestar_Glob w pattern)
    (json_MarshalIndent w).

(* ===================================================================== *)
(** ** Structure lemmas                                                   *)
(* ===================================================================== *)

Lemma InitConfig_stages (w : World) (c : Configuration) :
  InitConfig w c =
  (v <- lift (mergeSources w) ;;
   populate w v ;; checkConfig ;; normalizeAndDiscover w) c.
Proof.
  unfold InitConfig, mergeSources, systemConfigFile, homeConfigFile,
    currentConfigFile, populate, normalizeAndDiscover.
  set (appDataDir := os_Getenv w windowsAppDataEnvVar).
  assert (Hsys : (0 <? String.length systemDirConfigFilePath)%nat = true)
    by reflexivity.
  assert (Hnone : (0 <? String.length "")%nat = false) by reflexivity.
  cbv beta iota zeta delta [bind lift ret result_bind viper.MergeConfigMap].
  destruct (String.eqb (runtime_GOOS w) "windows");
    [destruct (0 <? String.length appDataDir)%nat eqn:Happ|].
  - rewrite Happ.
    destruct (processConfigFile w _ _); [|reflexivity].
    destruct (homedir_Dir w); [|reflexivity].
    destruct (processConfigFile w _ _); [|reflexivity].
    destruct (os_Getwd w); [|reflexivity].
    destruct (processConfigFile w _ _); reflexivity.
  - rewrite Hnone.
    destruct (homedir_Dir w); [|reflexivity].
    destruct (processConfigFile w _ _); [|reflexivity].
    destruct (os_Getwd w); [|reflexivity].
    destruct (processConfigFile w _ _); reflexivity.
  - rewrite Hsys.
    destruct (processConfigFile w _ _); [|reflexivity].
    destruct (homedir_Dir w); [|reflexivity].
    destruct (processConfigFile w _ _); [|reflexivity].
    destruct (os_Getwd w); [|reflexivity].
    destruct (processConfigFile w _ _); reflexivity.
Qed.

Lemma MergeConfigMap_New (v : viper.Viper) :
  viper.MergeConfigMap viper.New v = Ok v.
Proof. destruct v; reflexivity. Qed.

(** Processing a candidate file is merging the layer it contributes. *)
Lemma processConfigFile_fileLayer (w : World) (path : string) (v : viper.Viper) :
  processConfigFile w path v =
  result_bind (fileLayer w path) (fun cfg => viper.MergeConfigMap cfg v).
Proof.
  unfold processConfigFile, fileLayer, viper_MergeConfig.
  destruct (u.FileExists w path); simpl.
  - destruct (os_Open w path) as [reader|e]; simpl; [|reflexivity].
    destruct (yaml_Decode w reader); reflexivity.
  - symmetry; apply MergeConfigMap_New.
Qed.

Lemma populate_populated (w : World) (v : viper.Viper) (c : Configuration) :
  populate w v c = (Ok tt, populated w v c).
Proof.
  unfold populate, populated, processEnvVars, envStackDirs, envValue,
    bind, lift, get, put; simpl.
  destruct (0 <? String.length (os_Getenv w "ATMOS_STACK_DIRS"))%nat,
    (0 <? String.length (os_Getenv w "ATMOS_TERRAFORM_DIR"))%nat,
    (0 <? String.length (os_Getenv w "ATMOS_STACK_NAME_PATTERN"))%nat,
    v as [[sd|] [td|] [sp|]]; reflexivity.
Qed.


Lemma checkConfig_state (c : Configuration) : snd (checkConfig c) = c.
Proof.
  unfold checkConfig, bind, get, raise, ret.
  destruct (List.length (StackDirs c) <? 1)%nat; [reflexivity|].
  destruct (String.length (TerraformDir c) <? 1)%nat; [reflexivity|].
  destruct (String.length (StackNamePattern c) <? 1)%nat; reflexivity.
Qed.

Lemma normalizeAndDiscover_settings (w : World) (c : Configuration) :
  sameSettings c (snd (normalizeAndDiscover w c)).
Proof.
  unfold normalizeAndDiscover, sameSettings, bind, lift, get, put, raise, ret.
  destruct (u.ConvertPathsToAbsolutePaths w (StackDirs c)) as [absPaths|e];
    simpl; [|auto].
  destruct (filepath_Abs w (TerraformDir c)) as [tf|e]; simpl; [|auto].
  destruct (findAllStackConfigsInPaths w absPaths) as [found|e]; simpl; [|auto].
  destruct (List.length found <? 1)%nat; simpl; auto.
Qed.

(** Once the sources are merged, the three configurable fields of
    [Config] are those of [populated], however the run ends. *)
Lemma InitConfig_settings (w : World) (v : viper.Viper) (c : Configuration) :
  mergeSources w = Ok v ->
  sameSettings (populated w v c) (snd (InitConfig w c)).
Proof.
  intros Hv. rewrite InitConfig_stages.
  unfold bind at 1, lift. rewrite Hv.
  unfold bind at 1. rewrite populate_populated.
  unfold bind.
  pose proof (checkConfig_state (populated w v c)) as Hc.
  destruct (checkConfig (populated w v c)) as [[[]|e] c1]; simpl in Hc; subst c1.
  - apply normalizeAndDiscover_settings.
  - simpl. unfold sameSettings; auto.
Qed.

(** The store after all merges, key by key: the binding of the
    highest-priority configuration file that has one, the default
    otherwise. *)
Lemma mergeSources_layers (w : World) (home cwd : string)
    (sys usr cur : ConfigMap) :
  homedir_Dir w = Ok home ->
  os_Getwd w = Ok cwd ->
  systemLayer w = Ok sys ->
  fileLayer w (homeConfigFile w home) = Ok usr ->
  fileLayer w (currentConfigFile w cwd) = Ok cur ->
  mergeSources w =
  Ok (mkConfigMap
        (Some (firstSet [key_StackDirs cur; key_StackDirs usr; key_StackDirs sys]
                 ["./stacks/*"]))
        (Some (firstSet [key_TerraformDir cur; key_TerraformDir usr;
                         key_TerraformDir sys] "./components/terraform"))
        (Some (firstSet [key_StackNamePattern cur; key_StackNamePattern usr;
                         key_StackNamePattern sys] "environment-stage"))).
Proof.
  intros Hhome Hcwd Hsys Husr Hcur.
  unfold mergeSources, systemLayer in *.
  assert (Hrest : forall v : viper.Viper,
    result_bind (homedir_Dir w) (fun configFilePath2 =>
    result_bind (processConfigFile w (homeConfigFile w configFilePath2) v) (fun v =>
    result_bind (os_Getwd w) (fun configFilePath3 =>
    processConfigFile w (currentConfigFile w configFilePath3) v))) =
    result_bind (viper.MergeConfigMap usr v) (viper.MergeConfigMap cur)).
  { intros v. rewrite Hhome. cbn [result_bind].
    rewrite processConfigFile_fileLayer, Husr. cbn [result_bind].
    destruct (viper.MergeConfigMap usr v) as [v'|e]; [|reflexivity].
    cbn [result_bind]. rewrite Hcwd. cbn [result_bind].
    rewrite processConfigFile_fileLayer, Hcur. reflexivity. }
  cbn [result_bind viper.MergeConfigMap].
  destruct (systemConfigFile w) as [configFile1|].
  - rewrite processConfigFile_fileLayer, Hsys. cbn [result_bind].
    destruct (viper.MergeConfigMap sys _) as [v1|e] eqn:H1; [|discriminate].
    cbn [result_bind]. rewrite Hrest.
    injection H1 as <-.
    destruct sys as [[?|] [?|] [?|]], usr as [[?|] [?|] [?|]],
      cur as [[?|] [?|] [?|]]; reflexivity.
  - injection Hsys as <-. cbn [result_bind]. rewrite Hrest.
    destruct usr as [[?|] [?|] [?|]], cur as [[?|] [?|] [?|]]; reflexivity.
Qed.

(* ===================================================================== *)
(** ** C1: priority of the configuration sources                          *)
(* ===================================================================== *)

(** C1.  Whatever candidate files are present and whatever ENV vars are
    set, each of [StackDirs], [TerraformDir] and [StackNamePattern] ends
    up with the value of the highest-priority source that sets it, in
    the order ENV var > current-dir file > home-dir file > system-dir
    file > built-in defaults. *)
Theorem InitConfig_priority (w : World) (home cwd : string)
    (sys usr cur : ConfigMap) :
  homedir_Dir w = Ok home ->
  os_Getwd w = Ok cwd ->
  systemLayer w = Ok sys ->
  fileLayer w (homeConfigFile w home) = Ok usr ->
  fileLayer w (currentConfigFile w cwd) = Ok cur ->
  let Config := snd (InitConfig w Config0) in
  StackDirs Config =
    firstSet [envStackDirs w; key_StackDirs cur; key_StackDirs usr;
              key_StackDirs sys; key_StackDirs defaultConfig] [] /\
  TerraformDir Config =
    firstSet [envValue w "ATMOS_TERRAFORM_DIR"; key_TerraformDir cur;
              key_TerraformDir usr; key_TerraformDir sys;
              key_TerraformDir defaultConfig] "" /\
  StackNamePattern Config =
    firstSet [envValue w "ATMOS_STACK_NAME_PATTERN"; key_StackNamePattern cur;
              key_StackNamePattern usr; key_StackNamePattern sys;
              key_StackNamePattern defaultConfig] "".
Proof.
  intros Hhome Hcwd Hsys Husr Hcur Config.
  pose proof (mergeSources_layers w Hhome Hcwd Hsys Husr Hcur) as Hv.
  destruct (InitConfig_settings w Config0 Hv) as (Hsd & Htd & Hsp).
  subst Config. rewrite Hsd, Htd, Hsp. unfold populated; simpl.
  destruct (envStackDirs w), (envValue w "ATMOS_TERRAFORM_DIR"),
    (envValue w "ATMOS_STACK_NAME_PATTERN"),
    sys as [[?|] [?|] [?|]], usr as [[?|] [?|] [?|]], cur as [[?|] [?|] [?|]];
    simpl; auto.
Qed.

Lemma InitConfig_priority_witness :
  let w := Example.world (Example.export "ATMOS_STACK_NAME_PATTERN" "tenant-stage"
                            Example.layered) in
  let Config := snd (InitConfig w Config0) in
  StackDirs Config = ["./cur/*"] /\
  TerraformDir Config = "./home-tf" /\
  StackNamePattern Config = "tenant-stage".
Proof.
  exact (InitConfig_priority
           (Example.world (Example.export "ATMOS_STACK_NAME_PATTERN" "tenant-stage"
                             Example.layered))
           (home := "/home/dev") (cwd := "/work")
           (sys := mkConfigMap (Some ["./sys/*"]) (Some "./sys-tf") (Some "sys-pattern"))
           (usr := mkConfigMap (Some ["./home/*"]) (Some "./home-tf") None)
           (cur := mkConfigMap (Some ["./cur/*"]) None None)
           eq_refl eq_refl eq_refl eq_refl eq_refl).
Defined.

(* ===================================================================== *)
(** ** C2: no file, no ENV var: the built-in defaults                     *)
(* ===================================================================== *)

Lemma fileLayer_absent (w : World) (path : string) :
  u.FileExists w path = false -> fileLayer w path = Ok viper.New.
Proof. intros H. unfold fileLayer. rewrite H. reflexivity. Qed.

Lemma envValue_empty (w : World) (name : string) :
  os_Getenv w name = "" -> envValue w name = None.
Proof. intros H. unfold envValue. rewrite H. reflexivity. Qed.

(** C2.  When none of the three candidate files exists and none of the
    three ENV vars has a non-empty value, the configurable fields are
    exactly the built-in defaults. *)
Theorem InitConfig_defaults (w : World) (home cwd : string) :
  homedir_Dir w = Ok home ->
  os_Getwd w = Ok cwd ->
  (forall path, systemConfigFile w = Some path -> u.FileExists w path = false) ->
  u.FileExists w (homeConfigFile w home) = false ->
  u.FileExists w (currentConfigFile w cwd) = false ->
  os_Getenv w "ATMOS_STACK_DIRS" = "" ->
  os_Getenv w "ATMOS_TERRAFORM_DIR" = "" ->
  os_Getenv w "ATMOS_STACK_NAME_PATTERN" = "" ->
  let Config := snd (InitConfig w Config0) in
  StackDirs Config = ["./stacks/*"] /\
  TerraformDir Config = "./components/terraform" /\
  StackNamePattern Config = "environment-stage".
Proof.
  intros Hhome Hcwd Hsys Husr Hcur Esd Etd Esp Config.
  assert (Hs : systemLayer w = Ok viper.New).
  { unfold systemLayer. destruct (systemConfigFile w) as [path|] eqn:E.
    - apply fileLayer_absent, Hsys; reflexivity.
    - reflexivity. }
  pose proof (mergeSources_layers w Hhome Hcwd Hs
                (fileLayer_absent w _ Husr) (fileLayer_absent w _ Hcur)) as Hv.
  destruct (InitConfig_settings w Config0 Hv) as (Hsd & Htd & Hsp).
  subst Config. rewrite Hsd, Htd, Hsp. unfold populated, envStackDirs.
  rewrite !envValue_empty by assumption. simpl. auto.
Qed.

Lemma InitConfig_defaults_witness :
  let Config := snd (InitConfig (Example.world Example.bare) Config0) in
  StackDirs Config = ["./stacks/*"] /\
  TerraformDir Config = "./components/terraform" /\
  StackNamePattern Config = "environment-stage".
Proof.
  apply (InitConfig_defaults (Example.world Example.bare)
           (home := "/home/dev") (cwd := "/work")); try reflexivity.
  intros path H. injection H as <-. reflexivity.
Defined.

(* ===================================================================== *)
(** ** C3: ATMOS_STACK_DIRS is split on commas                            *)
(* ===================================================================== *)

Lemma length_pos_nonempty (s : string) :
  s <> "" -> (0 <? String.length s)%nat = true.
Proof. destruct s; [congruence|reflexivity]. Qed.

Lemma envValue_set (w : World) (name : string) :
  os_Getenv w name <> "" -> envValue w name = Some (os_Getenv w name).
Proof.
  intros H. unfold envValue. rewrite (length_pos_nonempty H). reflexivity.
Qed.

(** [strings_Split] cuts at the separators and nowhere else: joining the
    pieces with the separator gives the string back, and no piece holds
    a separator. *)
Lemma strings_Split_nonempty (s : string) (sep : ascii) :
  strings_Split s sep <> [].
Proof.
  destruct s as [|c s]; simpl; [discriminate|].
  destruct (Ascii.eqb c sep); [discriminate|].
  destruct (strings_Split s sep); discriminate.
Qed.

Lemma strings_Join_Split (s : string) (sep : ascii) :
  strings_Join (strings_Split s sep) (String sep "") = s.
Proof.
  induction s as [|c s IH]; simpl; [reflexivity|].
  pose proof (strings_Split_nonempty s sep) as Hne.
  destruct (Ascii.eqb_spec c sep) as [->|Hc].
  - destruct (strings_Split s sep) as [|p ps]; [congruence|].
    simpl in *. rewrite IH. reflexivity.
  - destruct (strings_Split s sep) as [|p ps]; [congruence|].
    destruct ps; simpl in *; rewrite <- IH; reflexivity.
Qed.

Lemma strings_Split_pieces (s : string) (sep : ascii) :
  Forall (fun piece => hasByte sep piece = false) (strings_Split s sep).
Proof.
  induction s as [|c s IH]; simpl.
  - constructor; [reflexivity|constructor].
  - destruct (Ascii.eqb c sep) eqn:E.
    + constructor; [reflexivity|assumption].
    + destruct (strings_Split s sep) as [|p ps].
      * constructor; [simpl; rewrite E; reflexivity|constructor].
      * inversion IH; subst. constructor; [simpl; rewrite E|]; assumption.
Qed.

(** C3.  Once the configuration sources are read, a non-empty
    [ATMOS_STACK_DIRS] decides [StackDirs] whatever the files bind the
    key to: the field is the value split on commas, in particular
    ["a"; "b"; "c"] for the value "a,b,c". *)
Theorem InitConfig_env_stack_dirs (w : World) (v : viper.Viper) (val : string) :
  mergeSources w = Ok v ->
  os_Getenv w "ATMOS_STACK_DIRS" = val ->
  val <> "" ->
  let Config := snd (InitConfig w Config0) in
  StackDirs Config = strings_Split val "," /\
  strings_Join (StackDirs Config) "," = val /\
  Forall (fun dir => hasByte "," dir = false) (StackDirs Config) /\
  (val = "a,b,c" -> StackDirs Config = ["a"; "b"; "c"]).
Proof.
  intros Hv Hval Hne Config.
  destruct (InitConfig_settings w Config0 Hv) as (Hsd & _).
  assert (H : StackDirs Config = strings_Split val ",").
  { subst Config. rewrite Hsd. unfold populated, envStackDirs; simpl.
    rewrite envValue_set by (rewrite Hval; exact Hne).
    rewrite Hval. reflexivity. }
  rewrite H. repeat split.
  - apply strings_Join_Split.
  - apply strings_Split_pieces.
  - intros ->. reflexivity.
Qed.

Lemma InitConfig_env_stack_dirs_witness :
  let w := Example.world (Example.export "ATMOS_STACK_DIRS" "a,b,c" Example.layered) in
  StackDirs (snd (InitConfig w Config0)) = ["a"; "b"; "c"].
Proof.
  assert (Hne : "a,b,c" <> "") by discriminate.
  exact (proj2 (proj2 (proj2
    (InitConfig_env_stack_dirs
       (Example.world (Example.export "ATMOS_STACK_DIRS" "a,b,c" Example.layered))
       (v := mkConfigMap (Some ["./cur/*"]) (Some "./home-tf") (Some "sys-pattern"))
       eq_refl eq_refl Hne))) eq_refl).
Defined.

(* ===================================================================== *)
(** ** C4: an absent file is skipped, a broken file is fatal              *)
(* ===================================================================== *)

Lemma processConfigFile_Err (w : World) (path : string) (v : viper.Viper)
    (e : error) :
  processConfigFile w path v = Err e <-> fileLayer w path = Err e.
Proof.
  rewrite processConfigFile_fileLayer.
  destruct (fileLayer w path) as [cfg|e']; simpl.
  - split; discriminate.
  - reflexivity.
Qed.

Lemma InitConfig_mergeSources_Err (w : World) (c : Configuration) (e : error) :
  mergeSources w = Err e -> InitConfig w c = (Err e, c).
Proof.
  intros H. rewrite InitConfig_stages. unfold bind, lift. rewrite H. reflexivity.
Qed.

(** C4.  [processConfigFile] returns the store untouched when the file
    does not exist; when it exists, it fails exactly with the error of
    opening the file or of decoding it; and such an error at any of the
    three candidates is what [InitConfig] returns, [Config] unwritten. *)
Theorem processConfigFile_absent_or_fatal (w : World) :
  (forall path v,
      u.FileExists w path = false -> processConfigFile w path v = Ok v) /\
  (forall path v e,
      u.FileExists w path = true ->
      (processConfigFile w path v = Err e <->
       os_Open w path = Err e \/
       exists reader, os_Open w path = Ok reader /\ yaml_Decode w reader = Err e)) /\
  (forall path v,
      isErr (processConfigFile w path v) = true <->
      u.FileExists w path = true /\
      (isErr (os_Open w path) = true \/
       exists reader, os_Open w path = Ok reader /\
                      isErr (yaml_Decode w reader) = true)) /\
  (forall c e path,
      systemConfigFile w = Some path ->
      processConfigFile w path defaultConfig = Err e ->
      InitConfig w c = (Err e, c)) /\
  (forall c e v1 home,
      match systemConfigFile w with
      | Some path => processConfigFile w path defaultConfig
      | None => Ok defaultConfig
      end = Ok v1 ->
      homedir_Dir w = Ok home ->
      processConfigFile w (homeConfigFile w home) v1 = Err e ->
      InitConfig w c = (Err e, c)) /\
  (forall c e v1 v2 home cwd,
      match systemConfigFile w with
      | Some path => processConfigFile w path defaultConfig
      | None => Ok defaultConfig
      end = Ok v1 ->
      homedir_Dir w = Ok home ->
      processConfigFile w (homeConfigFile w home) v1 = Ok v2 ->
      os_Getwd w = Ok cwd ->
      processConfigFile w (currentConfigFile w cwd) v2 = Err e ->
      InitConfig w c = (Err e, c)).
Proof.
  refine (conj _ (conj _ (conj _ (conj _ (conj _ _))))).
  - intros path v H. unfold processConfigFile. rewrite H. reflexivity.
  - intros path v e Hex. unfold processConfigFile, viper_MergeConfig.
    rewrite Hex. simpl.
    destruct (os_Open w path) as [reader|e1]; simpl.
    + destruct (yaml_Decode w reader) as [cfg|e2] eqn:E; simpl.
      * split; [discriminate|].
        intros [H|(r & H1 & H2)]; [discriminate|].
        injection H1 as <-. congruence.
      * split.
        -- intros [= ->]. right. exists reader. auto.
        -- intros [H|(r & H1 & H2)]; [discriminate|].
           injection H1 as <-. congruence.
    + split.
      * intros [= ->]. left. reflexivity.
      * intros [H|(r & H1 & H2)]; [congruence|discriminate].
  - intros path v. unfold processConfigFile, viper_MergeConfig.
    destruct (u.FileExists w path); simpl.
    + destruct (os_Open w path) as [reader|e1]; simpl.
      * destruct (yaml_Decode w reader) as [cfg|e2] eqn:E; simpl.
        -- split; [discriminate|].
           intros [_ [H|(r & H1 & H2)]]; [discriminate|].
           injection H1 as <-. rewrite E in H2. discriminate.
        -- split; [|reflexivity].
           intros _. split; [reflexivity|]. right. exists reader.
           rewrite E. auto.
      * split; [|reflexivity]. intros _. split; [reflexivity|]. left. reflexivity.
    + split; [discriminate|]. intros [H _]. discriminate.
  - intros c e path Hp H. apply InitConfig_mergeSources_Err.
    unfold mergeSources. cbn [result_bind viper.MergeConfigMap].
    rewrite Hp. change (mkConfigMap _ _ _) with defaultConfig. rewrite H.
    reflexivity.
  - intros c e v1 home H1 Hh H. apply InitConfig_mergeSources_Err.
    unfold mergeSources. cbn [result_bind viper.MergeConfigMap].
    change (mkConfigMap _ _ _) with defaultConfig.
    revert H1.
    destruct (systemConfigFile w); intros H1;
      [rewrite H1|injection H1 as <-]; cbn [result_bind];
      rewrite Hh; cbn [result_bind]; rewrite H; reflexivity.
  - intros c e v1 v2 home cwd H1 Hh H2 Hc H. apply InitConfig_mergeSources_Err.
    unfold mergeSources. cbn [result_bind viper.MergeConfigMap].
    change (mkConfigMap _ _ _) with defaultConfig.
    revert H1.
    destruct (systemConfigFile w); intros H1;
      [rewrite H1|injection H1 as <-]; cbn [result_bind];
      rewrite Hh; cbn [result_bind]; rewrite H2; cbn [result_bind];
      rewrite Hc; cbn [result_bind]; rewrite H; reflexivity.
Qed.

Lemma processConfigFile_absent_or_fatal_witness :
  processConfigFile (Example.world Example.bare) "/work/atmos.yaml" defaultConfig
    = Ok defaultConfig /\
  InitConfig (Example.world (Example.addFile "/work/atmos.yaml" "{{" Example.bare))
    Config0
    = (Err "While parsing config: yaml: did not find expected key", Config0) /\
  InitConfig (Example.world (Example.lock "/home/dev/.atmos/atmos.yaml"
                (Example.addFile "/home/dev/.atmos/atmos.yaml" "locked" Example.bare)))
    Config0
    = (Err "open /home/dev/.atmos/atmos.yaml: permission denied", Config0).
Proof.
  split; [|split].
  - apply (proj1 (processConfigFile_absent_or_fatal (Example.world Example.bare))).
    reflexivity.
  - exact (proj2 (proj2 (proj2 (proj2 (proj2
      (processConfigFile_absent_or_fatal
         (Example.world (Example.addFile "/work/atmos.yaml" "{{" Example.bare)))))))
      Config0 _ defaultConfig defaultConfig "/home/dev" "/work"
      eq_refl eq_refl eq_refl eq_refl eq_refl).
  - exact (proj1 (proj2 (proj2 (proj2 (proj2
      (processConfigFile_absent_or_fatal
         (Example.world (Example.lock "/home/dev/.atmos/atmos.yaml"
            (Example.addFile "/home/dev/.atmos/atmos.yaml" "locked"
               Example.bare))))))))
      Config0 _ defaultConfig "/home/dev" eq_refl eq_refl eq_refl).
Defined.

(* ===================================================================== *)
(** ** C5: validation of the required fields                              *)
(* ===================================================================== *)

Lemma checkConfig_Ok (c : Configuration) :
  StackDirs c <> [] -> TerraformDir c <> "" -> StackNamePattern c <> "" ->
  checkConfig c = (Ok tt, c).
Proof.
  intros H1 H2 H3. unfold checkConfig, bind, get, raise, ret.
  destruct (StackDirs c); [congruence|].
  destruct (TerraformDir c); [congruence|].
  destruct (StackNamePattern c); [congruence|].
  reflexivity.
Qed.

Lemma InitConfig_after_populate (w : World) (v : viper.Viper) (c : Configuration) :
  mergeSources w = Ok v ->
  InitConfig w c =
  match fst (checkConfig (populated w v c)) with
  | Ok _ => normalizeAndDiscover w (populated w v c)
  | Err e => (Err e, populated w v c)
  end.
Proof.
  intros Hv. rewrite InitConfig_stages.
  unfold bind at 1, lift. rewrite Hv.
  unfold bind at 1. rewrite populate_populated.
  unfold bind.
  pose proof (checkConfig_state (populated w v c)) as Hc.
  destruct (checkConfig (populated w v c)) as [[[]|e] c1]; simpl in *; subst c1;
    reflexivity.
Qed.

(** C5.  [checkConfig] fails exactly when [StackDirs] is an empty
    sequence, [TerraformDir] an empty string or [StackNamePattern] an
    empty string; the error names the first such field by the key of the
    configuration file and by the ENV variable that set it.  In
    [InitConfig] the check is applied to the record as the ENV vars left
    it: a failure is returned with nothing normalized, a success leads
    on to the absolute paths. *)
Theorem checkConfig_required_fields (w : World) (v : viper.Viper)
    (c : Configuration) :
  (isErr (fst (checkConfig c)) = true <->
   StackDirs c = [] \/ TerraformDir c = "" \/ StackNamePattern c = "") /\
  (forall e, fst (checkConfig c) = Err e ->
     (StackDirs c = [] /\
      mentions e "'StackDirs'" /\ mentions e "'ATMOS_STACK_DIRS'") \/
     (StackDirs c <> [] /\ TerraformDir c = "" /\
      mentions e "'TerraformDir'" /\ mentions e "'ATMOS_TERRAFORM_DIR'") \/
     (StackDirs c <> [] /\ TerraformDir c <> "" /\ StackNamePattern c = "" /\
      mentions e "'StackNamePattern'" /\ mentions e "'ATMOS_STACK_NAME_PATTERN'")) /\
  (mergeSources w = Ok v ->
   let Config := populated w v Config0 in
   (forall e, fst (checkConfig Config) = Err e ->
              InitConfig w Config0 = (Err e, Config)) /\
   (fst (checkConfig Config) = Ok tt ->
    InitConfig w Config0 = normalizeAndDiscover w Config)).
Proof.
  refine (conj _ (conj _ _)).
  - unfold checkConfig, bind, get, raise, ret.
    destruct (StackDirs c) as [|d ds]; simpl; [tauto|].
    destruct (TerraformDir c) as [|a s]; simpl; [tauto|].
    destruct (StackNamePattern c) as [|a' s']; simpl; [tauto|].
    split; [discriminate|]. intros [H|[H|H]]; discriminate.
  - intros e. unfold checkConfig, bind, get, raise, ret.
    destruct (StackDirs c) as [|d ds]; simpl.
    { intros [= <-]. left. split; [reflexivity|]. split.
      - exists "At least one path to stack config must be provided in ",
          " or 'ATMOS_STACK_DIRS' ENV variable". reflexivity.
      - exists "At least one path to stack config must be provided in 'StackDirs' or ",
          " ENV variable". reflexivity. }
    destruct (TerraformDir c) as [|a s]; simpl.
    { intros [= <-]. right. left. split; [discriminate|]. split; [reflexivity|].
      split.
      - exists "Terraform dir must be provided in ",
          " or 'ATMOS_TERRAFORM_DIR' ENV variable". reflexivity.
      - exists "Terraform dir must be provided in 'TerraformDir' or ",
          " ENV variable". reflexivity. }
    destruct (StackNamePattern c) as [|a' s']; simpl.
    { intros [= <-]. right. right. split; [discriminate|]. split; [discriminate|].
      split; [reflexivity|]. split.
      - exists "Stack name pattern must be provided in ",
          " or 'ATMOS_STACK_NAME_PATTERN' ENV variable". reflexivity.
      - exists "Stack name pattern must be provided in 'StackNamePattern' or ",
          " ENV variable". reflexivity. }
    discriminate.
  - intros Hv Config. split.
    + intros e He. rewrite (InitConfig_after_populate w Config0 Hv).
      fold Config. rewrite He. reflexivity.
    + intros Hok. rewrite (InitConfig_after_populate w Config0 Hv).
      fold Config. rewrite Hok. reflexivity.
Qed.

Lemma checkConfig_required_fields_witness :
  let w := Example.world Example.bare in
  InitConfig w Config0 = normalizeAndDiscover w (populated w defaultConfig Config0).
Proof.
  exact (proj2 (proj2 (proj2
    (checkConfig_required_fields (Example.world Example.bare)
       defaultConfig Config0)) eq_refl) eq_refl).
Defined.

(* ===================================================================== *)
(** ** C8: discovery concatenates the matches of the patterns             *)
(* ===================================================================== *)

Lemma findInPath_pathWithExt (w : World) (res : list string) (p : string) :
  findInPath w res p =
  result_bind (doublestar_Glob w (pathWithExt w p))
    (fun matches => Ok (res ++ matches)%list).
Proof.
  unfold findInPath, pathWithExt, g.DefaultStackConfigFileExtension.
  destruct (String.eqb (filepath_Ext w p) "");
    (destruct (doublestar_Glob w _) as [[|m ms]|e]; simpl;
     [rewrite app_nil_r|..]; reflexivity).
Qed.

Lemma findAllFrom_concat (w : World) (pathGlobs : list string)
    (matches : list (list string)) :
  Forall2 (fun p ms => doublestar_Glob w (pathWithExt w p) = Ok ms)
    pathGlobs matches ->
  forall res, findAllFrom w res pathGlobs = Ok (res ++ concat matches)%list.
Proof.
  induction 1 as [|p ms ps mss Hp _ IH]; intros res; simpl.
  - rewrite app_nil_r. reflexivity.
  - rewrite findInPath_pathWithExt, Hp. simpl.
    rewrite IH, app_assoc. reflexivity.
Qed.

Lemma count_occ_concat (f : string) (matches : list (list string)) :
  count_occ string_dec (concat matches) f =
  list_sum (map (fun ms => count_occ string_dec ms f) matches).
Proof.
  induction matches as [|ms mss IH]; simpl; [reflexivity|].
  rewrite count_occ_app, IH. reflexivity.
Qed.

(** C8.  When every pattern expands, the result of discovery is the
    match lists of the patterns one after the other, in the order of
    the patterns and each in its own order.  Nothing is removed: a file
    occurs as often as the match lists hold it together, so a file that
    each of the [n] patterns matches once occurs [n] times. *)
Theorem findAllStackConfigsInPaths_concat (w : World) (pathGlobs : list string)
    (matches : list (list string)) :
  Forall2 (fun p ms => doublestar_Glob w (pathWithExt w p) = Ok ms)
    pathGlobs matches ->
  findAllStackConfigsInPaths w pathGlobs = Ok (concat matches) /\
  (forall f,
      count_occ string_dec (concat matches) f =
      list_sum (map (fun ms => count_occ string_dec ms f) matches)) /\
  (forall f,
      Forall (fun ms => count_occ string_dec ms f = 1) matches ->
      count_occ string_dec (concat matches) f = List.length pathGlobs).
Proof.
  intros H. split; [|split].
  - unfold findAllStackConfigsInPaths. rewrite (@findAllFrom_concat w pathGlobs matches H).
    reflexivity.
  - intros f. apply count_occ_concat.
  - intros f Hone. rewrite count_occ_concat.
    rewrite (Forall2_length H). clear H.
    induction Hone as [|ms mss H1 _ IH]; simpl; [reflexivity|].
    rewrite H1, IH. reflexivity.
Qed.

Lemma findAllStackConfigsInPaths_concat_witness :
  findAllStackConfigsInPaths (Example.world Example.layered)
    ["/work/cur/*"; "/work/cur/b.yaml"; "/work/*/?.yaml"]
  = Ok ["/work/cur/a.yaml"; "/work/cur/b.yaml";
        "/work/cur/b.yaml";
        "/work/cur/a.yaml"; "/work/cur/b.yaml"] /\
  count_occ string_dec
    (concat [["/work/cur/a.yaml"; "/work/cur/b.yaml"];
             ["/work/cur/b.yaml"];
             ["/work/cur/a.yaml"; "/work/cur/b.yaml"]])
    "/work/cur/b.yaml" = 3.
Proof.
  assert (H : Forall2
    (fun p ms => doublestar_Glob (Example.world Example.layered)
                   (pathWithExt (Example.world Example.layered) p) = Ok ms)
    ["/work/cur/*"; "/work/cur/b.yaml"; "/work/*/?.yaml"]
    [["/work/cur/a.yaml"; "/work/cur/b.yaml"];
     ["/work/cur/b.yaml"];
     ["/work/cur/a.yaml"; "/work/cur/b.yaml"]]).
  { repeat constructor. }
  destruct (@findAllStackConfigsInPaths_concat _ _ _ H) as (H1 & _ & H3).
  split; [exact H1|].
  apply (H3 "/work/cur/b.yaml"). repeat constructor.
Defined.

(* ===================================================================== *)
(** ** C6: the default extension                                          *)
(* ===================================================================== *)

Lemma findAll_single (w : World) (p : string) :
  findAllStackConfigsInPaths w [p] = doublestar_Glob w (pathWithExt w p).
Proof.
  unfold findAllStackConfigsInPaths; simpl.
  rewrite findInPath_pathWithExt.
  destruct (doublestar_Glob w (pathWithExt w p)); reflexivity.
Qed.

(** C6 as the spec has it fails on its example.  In a working directory
    that holds exactly [fixtures/stacks/x.yaml], the stack directory
    "./fixtures/stacks" becomes the pattern "/work/fixtures/stacks",
    which has no extension and is matched as "/work/fixtures/stacks.yaml":
    that is not the file inside the directory, discovery finds nothing
    and [InitConfig] ends with the error of the empty result. *)
Lemma fixtures_directory_not_searched :
  let w := Example.world Example.fixtures in
  map fst (Example.files Example.fixtures) = ["/work/fixtures/stacks/x.yaml"] /\
  u.ConvertPathsToAbsolutePaths w ["./fixtures/stacks"]
    = Ok ["/work/fixtures/stacks"] /\
  pathWithExt w "/work/fixtures/stacks" = "/work/fixtures/stacks.yaml" /\
  findAllStackConfigsInPaths w ["/work/fixtures/stacks"] = Ok [] /\
  findAllStackConfigsInPaths w ["/work/fixtures/stacks"]
    <> Ok ["/work/fixtures/stacks/x.yaml"] /\
  InitConfig (Example.world
                (Example.export "ATMOS_STACK_DIRS" "./fixtures/stacks"
                   Example.fixtures)) Config0
    = (Err ("No config files found in any of the provided path globs:" ++ nl
            ++ Example.MarshalIndent ["/work/fixtures/stacks"] ++ nl),
       mkConfiguration "environment-stage" ["./fixtures/stacks"]
         ["/work/fixtures/stacks"] "./components/terraform"
         "/work/components/terraform" []).
Proof.
  cbv zeta. repeat split; try reflexivity.
  intros H. discriminate H.
Qed.

(** C6, amended.  A pattern without a file extension is handed to the
    glob library with ".yaml" appended, a pattern with an extension as
    it is, and the matches of that pattern are what the pattern
    contributes.  So the stack directory "./fixtures/stacks" is searched
    as "<cwd>/fixtures/stacks.yaml"; it is the pattern
    "./fixtures/stacks/*", searched as "<cwd>/fixtures/stacks/*.yaml",
    that yields exactly the one match [fixtures/stacks/x.yaml] when
    that file is the only one present. *)
Theorem findAll_default_extension (w : World) (p : string) :
  (filepath_Ext w p = "" ->
   pathWithExt w p = p ++ ".yaml" /\
   findAllStackConfigsInPaths w [p] = doublestar_Glob w (p ++ ".yaml") /\
   forall res, findInPath w res p =
     result_bind (doublestar_Glob w (p ++ ".yaml"))
       (fun matches => Ok (res ++ matches)%list)) /\
  (filepath_Ext w p <> "" ->
   pathWithExt w p = p /\
   findAllStackConfigsInPaths w [p] = doublestar_Glob w p /\
   forall res, findInPath w res p =
     result_bind (doublestar_Glob w p)
       (fun matches => Ok (res ++ matches)%list)) /\
  (let fx := Example.world Example.fixtures in
   findAllStackConfigsInPaths fx ["/work/fixtures/stacks"]
     = doublestar_Glob fx "/work/fixtures/stacks.yaml" /\
   u.ConvertPathsToAbsolutePaths fx ["./fixtures/stacks/*"]
     = Ok ["/work/fixtures/stacks/*"] /\
   pathWithExt fx "/work/fixtures/stacks/*" = "/work/fixtures/stacks/*.yaml" /\
   findAllStackConfigsInPaths fx ["/work/fixtures/stacks/*"]
     = Ok ["/work/fixtures/stacks/x.yaml"]).
Proof.
  refine (conj _ (conj _ _)).
  - intros He.
    assert (Hp : pathWithExt w p = p ++ ".yaml")
      by (unfold pathWithExt; rewrite He; reflexivity).
    split; [exact Hp|]. split.
    + rewrite findAll_single, Hp. reflexivity.
    + intros res. rewrite findInPath_pathWithExt, Hp. reflexivity.
  - intros He.
    assert (Hp : pathWithExt w p = p).
    { unfold pathWithExt.
      destruct (String.eqb_spec (filepath_Ext w p) ""); [contradiction|reflexivity]. }
    split; [exact Hp|]. split.
    + rewrite findAll_single, Hp. reflexivity.
    + intros res. rewrite findInPath_pathWithExt, Hp. reflexivity.
  - cbv zeta. repeat split; reflexivity.
Qed.

Lemma findAll_default_extension_witness :
  let w := Example.world Example.bare in
  findAllStackConfigsInPaths w ["/work/stacks/*"]
    = doublestar_Glob w "/work/stacks/*.yaml" /\
  findAllStackConfigsInPaths w ["/work/stacks/dev.yaml"]
    = doublestar_Glob w "/work/stacks/dev.yaml".
Proof.
  assert (Hne : filepath_Ext (Example.world Example.bare) "/work/stacks/dev.yaml"
                <> "") by discriminate.
  exact (conj
    (proj1 (proj2 (proj1
       (findAll_default_extension (Example.world Example.bare) "/work/stacks/*")
       eq_refl)))
    (proj1 (proj2 (proj1 (proj2
       (findAll_default_extension (Example.world Example.bare)
          "/work/stacks/dev.yaml"))
       Hne)))).
Defined.

(* ===================================================================== *)
(** ** C7: no stack config file is an error                               *)
(* ===================================================================== *)

Lemma append_assoc (a b c : string) : (a ++ b) ++ c = a ++ b ++ c.
Proof. induction a as [|x a IH]; simpl; [|rewrite IH]; reflexivity. Qed.

Lemma length_lt1_nil {A} (l : list A) : (List.length l <? 1)%nat = true -> l = [].
Proof. destruct l; [reflexivity|discriminate]. Qed.

Lemma normalizeAndDiscover_run (w : World) (c : Configuration)
    (absPaths : list string) (tf : string) (found : list string) :
  u.ConvertPathsToAbsolutePaths w (StackDirs c) = Ok absPaths ->
  filepath_Abs w (TerraformDir c) = Ok tf ->
  findAllStackConfigsInPaths w absPaths = Ok found ->
  normalizeAndDiscover w c =
  let c' := set_TerraformDirAbsolutePath tf (set_StackDirsAbsolutePaths absPaths c) in
  match found with
  | [] => (Err ("No config files found in any of the provided path globs:"
                ++ nl ++ json_MarshalIndent w absPaths ++ nl), c')
  | _ :: _ => (Ok tt, set_StackConfigFiles found c')
  end.
Proof.
  intros Ha Ht Hf.
  unfold normalizeAndDiscover, bind, lift, get, put, raise, ret.
  rewrite Ha. cbn [StackDirs TerraformDir set_StackDirsAbsolutePaths].
  rewrite Ht, Hf. destruct found; reflexivity.
Qed.

(** C7.  With the record validated and the paths made absolute: when
    the patterns together match no file, [InitConfig] returns an error
    whose message contains the serialized list of the absolute
    stack-directory patterns and [StackConfigFiles] is left as it was;
    when they match some file, [InitConfig] succeeds and
    [StackConfigFiles] is the list of matches. *)
Theorem InitConfig_stack_config_files (w : World) (v : viper.Viper)
    (absPaths : list string) (tf : string) (found : list string) :
  mergeSources w = Ok v ->
  fst (checkConfig (populated w v Config0)) = Ok tt ->
  u.ConvertPathsToAbsolutePaths w (StackDirs (populated w v Config0)) = Ok absPaths ->
  filepath_Abs w (TerraformDir (populated w v Config0)) = Ok tf ->
  findAllStackConfigsInPaths w absPaths = Ok found ->
  (found = [] ->
   (exists msg, fst (InitConfig w Config0) = Err msg /\
                mentions msg (json_MarshalIndent w absPaths)) /\
   StackConfigFiles (snd (InitConfig w Config0)) = StackConfigFiles Config0) /\
  (found <> [] ->
   fst (InitConfig w Config0) = Ok tt /\
   StackConfigFiles (snd (InitConfig w Config0)) = found).
Proof.
  intros Hv Hok Ha Ht Hf.
  rewrite (InitConfig_after_populate w Config0 Hv), Hok.
  rewrite (normalizeAndDiscover_run w _ Ha Ht Hf).
  split.
  - intros ->. cbn [fst snd]. split; [|reflexivity].
    eexists. split; [reflexivity|].
    exists ("No config files found in any of the provided path globs:" ++ nl), nl.
    rewrite append_assoc. reflexivity.
  - intros Hne. destruct found as [|f fs]; [congruence|].
    split; reflexivity.
Qed.

Lemma InitConfig_stack_config_files_witness :
  (fst (InitConfig (Example.world Example.layered) Config0) = Ok tt /\
   StackConfigFiles (snd (InitConfig (Example.world Example.layered) Config0))
     = ["/work/cur/a.yaml"; "/work/cur/b.yaml"]) /\
  StackConfigFiles
    (snd (InitConfig (Example.world
                        (Example.export "ATMOS_STACK_DIRS" "./none/*" Example.layered))
            Config0)) = [].
Proof.
  split.
  - assert (Hne : ["/work/cur/a.yaml"; "/work/cur/b.yaml"] <> []) by discriminate.
    exact (proj2
      (InitConfig_stack_config_files (Example.world Example.layered)
         (v := mkConfigMap (Some ["./cur/*"]) (Some "./home-tf") (Some "sys-pattern"))
         (absPaths := ["/work/cur/*"]) (tf := "/work/home-tf")
         eq_refl eq_refl eq_refl eq_refl eq_refl) Hne).
  - exact (proj2 (proj1
      (InitConfig_stack_config_files
         (Example.world (Example.export "ATMOS_STACK_DIRS" "./none/*" Example.layered))
         (v := mkConfigMap (Some ["./cur/*"]) (Some "./home-tf") (Some "sys-pattern"))
         (absPaths := ["/work/none/*"]) (tf := "/work/home-tf") (found := [])
         eq_refl eq_refl eq_refl eq_refl eq_refl) eq_refl)).
Defined.

(* ===================================================================== *)
(** ** C9: an empty ENV var is an unset ENV var                           *)
(* ===================================================================== *)

(** The environment reaches [InitConfig] through [os_Getenv] only: two
    environments with the same [os_Getenv] give the same run. *)
Section SameGetenv.

Variable w : World.
Variables env env' : string -> option string.
Hypothesis Hgetenv :
  forall key, os_Getenv (withEnv env w) key = os_Getenv (withEnv env' w) key.

Lemma ext_scan_withEnv (e : string -> option string)
    (backwards tail : list ascii) :
  ext_scan (withEnv e w) backwards tail = ext_scan w backwards tail.
Proof.
  revert tail. induction backwards as [|c before IH]; intros tail; simpl.
  - reflexivity.
  - rewrite IH. reflexivity.
Qed.

Lemma ConvertPaths_withEnv (e : string -> option string) (paths : list string) :
  u.ConvertPathsToAbsolutePaths (withEnv e w) paths =
  u.ConvertPathsToAbsolutePaths w paths.
Proof.
  induction paths as [|p rest IH]; simpl; [reflexivity|].
  rewrite IH. reflexivity.
Qed.

Lemma findAllFrom_withEnv (e : string -> option string)
    (pathGlobs res : list string) :
  findAllFrom (withEnv e w) res pathGlobs = findAllFrom w res pathGlobs.
Proof.
  revert res. induction pathGlobs as [|p rest IH]; intros res; simpl.
  - reflexivity.
  - unfold findInPath, filepath_Ext. rewrite ext_scan_withEnv. simpl.
    destruct (doublestar_Glob w _) as [matches|err]; simpl; [|reflexivity].
    destruct (0 <? List.length matches)%nat; apply IH.
Qed.

Lemma normalizeAndDiscover_withEnv (e : string -> option string)
    (c : Configuration) :
  normalizeAndDiscover (withEnv e w) c = normalizeAndDiscover w c.
Proof.
  unfold normalizeAndDiscover, findAllStackConfigsInPaths,
    bind, lift, get, put, raise, ret.
  rewrite ConvertPaths_withEnv.
  destruct (u.ConvertPathsToAbsolutePaths w (StackDirs c)); [|reflexivity].
  cbn [filepath_Abs withEnv TerraformDir set_StackDirsAbsolutePaths].
  destruct (filepath_Abs w (TerraformDir c)); [|reflexivity].
  rewrite findAllFrom_withEnv. reflexivity.
Qed.

Lemma mergeSources_same_getenv :
  mergeSources (withEnv env w) = mergeSources (withEnv env' w).
Proof.
  unfold mergeSources, systemConfigFile. rewrite Hgetenv. reflexivity.
Qed.

Lemma populated_same_getenv (v : viper.Viper) (c : Configuration) :
  populated (withEnv env w) v c = populated (withEnv env' w) v c.
Proof.
  unfold populated, envStackDirs, envValue. rewrite !Hgetenv. reflexivity.
Qed.

Lemma InitConfig_same_getenv (c : Configuration) :
  InitConfig (withEnv env w) c = InitConfig (withEnv env' w) c.
Proof.
  rewrite !InitConfig_stages. unfold bind at 1 5, lift.
  rewrite mergeSources_same_getenv.
  destruct (mergeSources (withEnv env' w)) as [v|e]; [|reflexivity].
  unfold bind. rewrite !populate_populated, populated_same_getenv.
  destruct (checkConfig _) as [[[]|e] c1]; [|reflexivity].
  rewrite !normalizeAndDiscover_withEnv. reflexivity.
Qed.

End SameGetenv.

Lemma os_Getenv_empty_unset (w : World) (name key : string) :
  os_Getenv (setenv name "" w) key = os_Getenv (unsetenv name w) key.
Proof.
  unfold os_Getenv, setenv, unsetenv; simpl.
  destruct (String.eqb key name); reflexivity.
Qed.

Lemma processEnvVars_populated (w : World) (c : Configuration) :
  processEnvVars w c =
  (Ok tt,
   mkConfiguration
     (firstSet [envValue w "ATMOS_STACK_NAME_PATTERN"] (StackNamePattern c))
     (firstSet [envStackDirs w] (StackDirs c))
     (StackDirsAbsolutePaths c)
     (firstSet [envValue w "ATMOS_TERRAFORM_DIR"] (TerraformDir c))
     (TerraformDirAbsolutePath c)
     (StackConfigFiles c)).
Proof.
  unfold processEnvVars, envStackDirs, envValue, bind, get, put; simpl.
  destruct (0 <? String.length (os_Getenv w "ATMOS_STACK_DIRS"))%nat,
    (0 <? String.length (os_Getenv w "ATMOS_TERRAFORM_DIR"))%nat,
    (0 <? String.length (os_Getenv w "ATMOS_STACK_NAME_PATTERN"))%nat,
    c; reflexivity.
Qed.

(** C9.  For each of the three ENV vars: a run with the variable set to
    the empty string is the run with the variable unset; a variable
    whose value is empty leaves the field to what the files and the
    defaults gave it; a variable with a non-empty value overwrites the
    field. *)
Theorem processEnvVars_empty_is_unset (w : World) (c : Configuration) :
  (forall name,
      processEnvVars (setenv name "" w) c = processEnvVars (unsetenv name w) c /\
      InitConfig (setenv name "" w) c = InitConfig (unsetenv name w) c) /\
  (os_Getenv w "ATMOS_STACK_DIRS" = "" ->
   StackDirs (snd (processEnvVars w c)) = StackDirs c) /\
  (os_Getenv w "ATMOS_TERRAFORM_DIR" = "" ->
   TerraformDir (snd (processEnvVars w c)) = TerraformDir c) /\
  (os_Getenv w "ATMOS_STACK_NAME_PATTERN" = "" ->
   StackNamePattern (snd (processEnvVars w c)) = StackNamePattern c) /\
  (os_Getenv w "ATMOS_STACK_DIRS" <> "" ->
   StackDirs (snd (processEnvVars w c)) =
   strings_Split (os_Getenv w "ATMOS_STACK_DIRS") ",") /\
  (os_Getenv w "ATMOS_TERRAFORM_DIR" <> "" ->
   TerraformDir (snd (processEnvVars w c)) = os_Getenv w "ATMOS_TERRAFORM_DIR") /\
  (os_Getenv w "ATMOS_STACK_NAME_PATTERN" <> "" ->
   StackNamePattern (snd (processEnvVars w c)) =
   os_Getenv w "ATMOS_STACK_NAME_PATTERN") /\
  (forall v,
      mergeSources w = Ok v ->
      let Config := snd (InitConfig w Config0) in
      (os_Getenv w "ATMOS_STACK_DIRS" = "" ->
       StackDirs Config = firstSet [key_StackDirs v] []) /\
      (os_Getenv w "ATMOS_TERRAFORM_DIR" = "" ->
       TerraformDir Config = firstSet [key_TerraformDir v] "") /\
      (os_Getenv w "ATMOS_STACK_NAME_PATTERN" = "" ->
       StackNamePattern Config = firstSet [key_StackNamePattern v] "")).
Proof.
  rewrite processEnvVars_populated. cbn [snd StackDirs TerraformDir StackNamePattern].
  unfold envStackDirs.
  refine (conj _ (conj _ (conj _ (conj _ (conj _ (conj _ (conj _ _))))))).
  - intros name. split.
    + rewrite !processEnvVars_populated. unfold envStackDirs, envValue.
      rewrite !os_Getenv_empty_unset. reflexivity.
    + apply (InitConfig_same_getenv w). intros key.
      apply os_Getenv_empty_unset.
  - intros H. rewrite (envValue_empty _ _ H). reflexivity.
  - intros H. rewrite (envValue_empty _ _ H). reflexivity.
  - intros H. rewrite (envValue_empty _ _ H). reflexivity.
  - intros H. rewrite (envValue_set _ _ H). reflexivity.
  - intros H. rewrite (envValue_set _ _ H). reflexivity.
  - intros H. rewrite (envValue_set _ _ H). reflexivity.
  - intros v Hv. cbv zeta.
    destruct (InitConfig_settings w Config0 Hv) as (Hsd & Htd & Hsp).
    rewrite Hsd, Htd, Hsp. unfold populated, envStackDirs.
    cbn [StackDirs TerraformDir StackNamePattern].
    repeat split; intros H; rewrite (envValue_empty _ _ H); reflexivity.
Qed.

Lemma processEnvVars_empty_is_unset_witness :
  let w := Example.world (Example.export "ATMOS_TERRAFORM_DIR" "" Example.layered) in
  os_LookupEnv w "ATMOS_TERRAFORM_DIR" = Some "" /\
  TerraformDir (snd (InitConfig w Config0)) = "./home-tf" /\
  TerraformDir (snd (processEnvVars w Config0)) = "".
Proof.
  cbv zeta.
  destruct (processEnvVars_empty_is_unset
              (Example.world (Example.export "ATMOS_TERRAFORM_DIR" "" Example.layered))
              Config0) as (_ & _ & Hkeep & _ & _ & _ & _ & Hrun).
  destruct (Hrun (mkConfigMap (Some ["./cur/*"]) (Some "./home-tf") (Some "sys-pattern"))
              eq_refl) as (_ & Htd & _).
  split; [reflexivity|]. split.
  - exact (Htd eq_refl).
  - exact (Hkeep eq_refl).
Defined.

(* ===================================================================== *)
(** ** C10: ATMOS_STACK_DIRS made of commas only                          *)
(* ===================================================================== *)

Lemma strings_Split_commas (n : nat) :
  strings_Split (strings_Repeat "," n) "," = repeat "" (S n).
Proof.
  induction n as [|n IH]; simpl; [reflexivity|].
  rewrite IH. reflexivity.
Qed.

Lemma ConvertPaths_repeat (w : World) (p : string) (n : nat) :
  u.ConvertPathsToAbsolutePaths w (repeat p (S n)) =
  result_bind (filepath_Abs w p) (fun absPath => Ok (repeat absPath (S n))).
Proof.
  induction n as [|n IH].
  - simpl. destruct (filepath_Abs w p); reflexivity.
  - change (repeat p (S (S n))) with (p :: repeat p (S n)).
    cbn [u.ConvertPathsToAbsolutePaths]. rewrite IH.
    destruct (filepath_Abs w p); reflexivity.
Qed.

(** C10.  When [ATMOS_STACK_DIRS] is a non-empty run of commas,
    [StackDirs] is a non-empty sequence of empty strings, one more than
    there are commas.  [checkConfig] does not object to it: it never
    returns the [StackDirs] error, and with the other two fields set it
    succeeds, so that [InitConfig] goes on to make the empty strings
    absolute and to search the resulting patterns. *)
Theorem InitConfig_only_commas (w : World) (v : viper.Viper) (n : nat) :
  mergeSources w = Ok v ->
  os_Getenv w "ATMOS_STACK_DIRS" = strings_Repeat "," (S n) ->
  let Config := populated w v Config0 in
  StackDirs Config = repeat "" (S (S n)) /\
  StackDirs Config <> [] /\
  Forall (fun dir => dir = "") (StackDirs Config) /\
  StackDirs (snd (InitConfig w Config0)) = StackDirs Config /\
  (forall e, fst (checkConfig Config) = Err e ->
     e <> "At least one path to stack config must be provided in 'StackDirs' or 'ATMOS_STACK_DIRS' ENV variable") /\
  (TerraformDir Config <> "" -> StackNamePattern Config <> "" ->
   checkConfig Config = (Ok tt, Config) /\
   InitConfig w Config0 = normalizeAndDiscover w Config /\
   u.ConvertPathsToAbsolutePaths w (StackDirs Config) =
   result_bind (filepath_Abs w "") (fun absPath => Ok (repeat absPath (S (S n))))).
Proof.
  intros Hv Henv Config.
  assert (Hsd : StackDirs Config = repeat "" (S (S n))).
  { subst Config. unfold populated, envStackDirs, envValue.
    cbn [StackDirs]. rewrite Henv.
    change (strings_Repeat "," (S n)) with (String "," (strings_Repeat "," n)).
    cbn [String.length Nat.ltb Nat.leb option_map firstSet].
    change (String "," (strings_Repeat "," n)) with (strings_Repeat "," (S n)).
    apply strings_Split_commas. }
  refine (conj Hsd (conj _ (conj _ (conj _ (conj _ _))))).
  - rewrite Hsd. discriminate.
  - rewrite Hsd. apply Forall_forall. intros dir Hin.
    apply repeat_spec in Hin. exact Hin.
  - apply (InitConfig_settings w Config0 Hv).
  - intros e. unfold checkConfig, bind, get, raise, ret. rewrite Hsd.
    destruct (TerraformDir Config), (StackNamePattern Config); simpl;
      intros H; try discriminate H; injection H as <-; discriminate.
  - intros Htd Hsp.
    assert (Hne : StackDirs Config <> []) by (rewrite Hsd; discriminate).
    pose proof (checkConfig_Ok Config Hne Htd Hsp) as Hok.
    split; [exact Hok|]. split.
    + rewrite (InitConfig_after_populate w Config0 Hv).
      fold Config. rewrite Hok. reflexivity.
    + rewrite Hsd. apply ConvertPaths_repeat.
Qed.

Lemma InitConfig_only_commas_witness :
  let w := Example.world (Example.export "ATMOS_STACK_DIRS" "," Example.layered) in
  StackDirs (snd (InitConfig w Config0)) = [""; ""] /\
  StackDirsAbsolutePaths (snd (InitConfig w Config0)) = ["/work"; "/work"].
Proof.
  cbv zeta.
  destruct (InitConfig_only_commas
              (Example.world (Example.export "ATMOS_STACK_DIRS" "," Example.layered))
              (v := mkConfigMap (Some ["./cur/*"]) (Some "./home-tf") (Some "sys-pattern"))
              (n := 0) eq_refl eq_refl) as (Hsd & _ & _ & Hrun & _ & _).
  split.
  - rewrite Hrun. exact Hsd.
  - reflexivity.
Defined.


(* ===================================================================== *)
(** ** Further properties of config.go                                    *)
(* ===================================================================== *)

(** *** The directories of the candidate files *)

Lemma mergeSources_mergeSystem (w : World) :
  mergeSources w =
  result_bind (mergeSystem w) (fun v =>
  result_bind (homedir_Dir w) (fun configFilePath2 =>
  result_bind (processConfigFile w (homeConfigFile w configFilePath2) v) (fun v =>
  result_bind (os_Getwd w) (fun configFilePath3 =>
  processConfigFile w (currentConfigFile w configFilePath3) v)))).
Proof.
  unfold mergeSources, mergeSystem. cbn [result_bind viper.MergeConfigMap].
  change (mkConfigMap _ _ _) with defaultConfig.
  destruct (systemConfigFile w); reflexivity.
Qed.

(** X1.  When the home directory cannot be resolved, [InitConfig]
    returns that error without reading the home-dir or current-dir
    candidate and without writing [Config]; so it does when the working
    directory cannot be resolved, after the home-dir candidate. *)
Theorem InitConfig_directory_errors (w : World) (c : Configuration)
    (v1 : viper.Viper) (e : error) :
  mergeSystem w = Ok v1 ->
  (homedir_Dir w = Err e -> InitConfig w c = (Err e, c)) /\
  (forall home v2,
      homedir_Dir w = Ok home ->
      processConfigFile w (homeConfigFile w home) v1 = Ok v2 ->
      os_Getwd w = Err e ->
      InitConfig w c = (Err e, c)).
Proof.
  intros H1. split.
  - intros Hh. apply InitConfig_mergeSources_Err.
    rewrite mergeSources_mergeSystem, H1. cbn [result_bind].
    rewrite Hh. reflexivity.
  - intros home v2 Hh H2 Hc. apply InitConfig_mergeSources_Err.
    rewrite mergeSources_mergeSystem, H1. cbn [result_bind].
    rewrite Hh. cbn [result_bind]. rewrite H2. cbn [result_bind].
    rewrite Hc. reflexivity.
Qed.

Lemma InitConfig_directory_errors_witness :
  InitConfig (Example.world homeless) Config0
    = (Err "$HOME is not defined", Config0) /\
  InitConfig (Example.world adrift) Config0
    = (Err "getwd: no such file or directory", Config0).
Proof.
  split.
  - exact (proj1 (@InitConfig_directory_errors (Example.world homeless) Config0
                    defaultConfig "$HOME is not defined" eq_refl)
             eq_refl).
  - exact (proj2 (@InitConfig_directory_errors (Example.world adrift) Config0
                    defaultConfig "getwd: no such file or directory" eq_refl)
             "/home/dev"
             (mkConfigMap (Some ["./stacks/*"]) (Some "./home-tf")
                (Some "environment-stage"))
             eq_refl eq_refl eq_refl).
Defined.

(** *** The environment variables that matter *)



(** *** Discovery: errors, and what a result is made of *)

Lemma findAllFrom_app (w : World) (ps1 ps2 res : list string) :
  findAllFrom w res (ps1 ++ ps2) =
  result_bind (findAllFrom w res ps1) (fun res' => findAllFrom w res' ps2).
Proof.
  revert res. induction ps1 as [|p ps1 IH]; intros res; simpl; [reflexivity|].
  destruct (findInPath w res p) as [res'|e]; simpl; [apply IH|reflexivity].
Qed.

(** X3.  Discovery stops at the first pattern the glob library rejects:
    the error of that pattern is the result, whatever was matched
    before it and whatever patterns follow. *)
Theorem findAllStackConfigsInPaths_first_error (w : World)
    (before : list string) (matches : list (list string))
    (p : string) (after : list string) (e : error) :
  Forall2 (fun q ms => doublestar_Glob w (pathWithExt w q) = Ok ms) before matches ->
  doublestar_Glob w (pathWithExt w p) = Err e ->
  findAllStackConfigsInPaths w (before ++ p :: after) = Err e.
Proof.
  intros Hb Hp. unfold findAllStackConfigsInPaths.
  rewrite findAllFrom_app, (@findAllFrom_concat w before matches Hb).
  simpl. rewrite findInPath_pathWithExt, Hp. reflexivity.
Qed.

Lemma findAllStackConfigsInPaths_first_error_witness :
  findAllStackConfigsInPaths (withStrictGlob (Example.world Example.layered))
    ["/work/cur/*"; "/work/cur/[ab"; "/work/cur/b.yaml"]
  = Err "syntax error in pattern".
Proof.
  apply (@findAllStackConfigsInPaths_first_error
           (withStrictGlob (Example.world Example.layered))
           ["/work/cur/*"] [["/work/cur/a.yaml"; "/work/cur/b.yaml"]]
           "/work/cur/[ab" ["/work/cur/b.yaml"]).
  - repeat constructor.
  - reflexivity.
Defined.

Lemma findAllFrom_Ok_inv (w : World) (pathGlobs : list string) :
  forall res found,
    findAllFrom w res pathGlobs = Ok found ->
    exists matches,
      Forall2 (fun p ms => doublestar_Glob w (pathWithExt w p) = Ok ms)
        pathGlobs matches /\
      found = (res ++ concat matches)%list.
Proof.
  induction pathGlobs as [|p ps IH]; intros res found H; simpl in H.
  - injection H as <-. exists []. split; [constructor|].
    simpl. rewrite app_nil_r. reflexivity.
  - rewrite findInPath_pathWithExt in H.
    destruct (doublestar_Glob w (pathWithExt w p)) as [ms|e] eqn:Hp;
      simpl in H; [|discriminate].
    destruct (IH _ _ H) as (mss & Hmss & ->).
    exists (ms :: mss). split; [constructor; assumption|].
    simpl. rewrite app_assoc. reflexivity.
Qed.

Lemma in_concat_Forall2 (w : World) (pathGlobs : list string)
    (matches : list (list string)) (f : string) :
  Forall2 (fun p ms => doublestar_Glob w (pathWithExt w p) = Ok ms)
    pathGlobs matches ->
  (In f (concat matches) <->
   exists p ms, In p pathGlobs /\
                doublestar_Glob w (pathWithExt w p) = Ok ms /\ In f ms).
Proof.
  induction 1 as [|p ms ps mss Hp _ IH]; simpl.
  - split; [contradiction|]. intros (p & ms & [] & _).
  - rewrite in_app_iff, IH. split.
    + intros [Hin|(q & qs & Hq & Hg & Hin)].
      * exists p, ms. auto.
      * exists q, qs. auto.
    + intros (q & qs & [<-|Hq] & Hg & Hin).
      * left. rewrite Hp in Hg. injection Hg as <-. exact Hin.
      * right. exists q, qs. auto.
Qed.

(** X4.  A successful discovery means that every pattern was expanded
    without error, and its result holds exactly the files that some
    pattern, with its extension, matches: nothing else gets in and no
    match is lost. *)
Theorem findAllStackConfigsInPaths_Ok_inv (w : World) (pathGlobs found : list string) :
  findAllStackConfigsInPaths w pathGlobs = Ok found ->
  (exists matches,
      Forall2 (fun p ms => doublestar_Glob w (pathWithExt w p) = Ok ms)
        pathGlobs matches /\
      found = concat matches) /\
  (forall p, In p pathGlobs ->
             exists ms, doublestar_Glob w (pathWithExt w p) = Ok ms) /\
  (forall f,
      In f found <->
      exists p ms, In p pathGlobs /\
                   doublestar_Glob w (pathWithExt w p) = Ok ms /\ In f ms).
Proof.
  intros H. destruct (findAllFrom_Ok_inv w pathGlobs [] H) as (mss & Hmss & ->).
  simpl. refine (conj _ (conj _ _)).
  - exists mss. auto.
  - clear H. induction Hmss as [|p ms ps mss' Hp _ IH]; intros q Hq.
    + destruct Hq.
    + destruct Hq as [<-|Hq]; [exists ms; exact Hp|apply IH, Hq].
  - intros f. apply in_concat_Forall2, Hmss.
Qed.

Lemma findAllStackConfigsInPaths_Ok_inv_witness :
  In "/work/cur/b.yaml" ["/work/cur/a.yaml"; "/work/cur/b.yaml"; "/work/cur/b.yaml"] <->
  exists p ms,
    In p ["/work/cur/*"; "/work/cur/b.yaml"] /\
    doublestar_Glob (Example.world Example.layered)
      (pathWithExt (Example.world Example.layered) p) = Ok ms /\
    In "/work/cur/b.yaml" ms.
Proof.
  exact (proj2 (proj2
    (@findAllStackConfigsInPaths_Ok_inv (Example.world Example.layered)
       ["/work/cur/*"; "/work/cur/b.yaml"]
       ["/work/cur/a.yaml"; "/work/cur/b.yaml"; "/work/cur/b.yaml"] eq_refl))
    "/work/cur/b.yaml").
Defined.

(** *** The extension of the pattern that is matched *)

Lemma list_ascii_of_string_app (a b : string) :
  list_ascii_of_string (a ++ b) =
  (list_ascii_of_string a ++ list_ascii_of_string b)%list.
Proof. induction a as [|c a IH]; simpl; [|rewrite IH]; reflexivity. Qed.

Lemma filepath_Ext_yaml (w : World) (p : string) :
  filepath_Ext w (p ++ ".yaml") = ".yaml".
Proof.
  unfold filepath_Ext. rewrite list_ascii_of_string_app, rev_app_distr.
  unfold os_IsPathSeparator; simpl.
  unfold os_IsPathSeparator.
  destruct (String.eqb (runtime_GOOS w) "windows"); reflexivity.
Qed.

(** X5.  Whatever the path glob, the pattern handed to the glob library
    has a file extension: ".yaml" when the glob had none, its own
    otherwise.  Qualifying a pattern twice changes nothing. *)
Theorem pathWithExt_has_extension (w : World) (p : string) :
  filepath_Ext w (pathWithExt w p) <> "" /\
  filepath_Ext w (p ++ ".yaml") = ".yaml" /\
  filepath_Ext w (pathWithExt w p) =
    (if String.eqb (filepath_Ext w p) "" then ".yaml" else filepath_Ext w p) /\
  pathWithExt w (pathWithExt w p) = pathWithExt w p.
Proof.
  assert (H : filepath_Ext w (pathWithExt w p) =
              if String.eqb (filepath_Ext w p) "" then ".yaml" else filepath_Ext w p).
  { unfold pathWithExt.
    destruct (String.eqb (filepath_Ext w p) "") eqn:E;
      [apply filepath_Ext_yaml|reflexivity]. }
  assert (Hne : filepath_Ext w (pathWithExt w p) <> "").
  { rewrite H. destruct (String.eqb_spec (filepath_Ext w p) "");
      [discriminate|assumption]. }
  refine (conj Hne (conj (filepath_Ext_yaml w p) (conj H _))).
  unfold pathWithExt at 1.
  destruct (String.eqb_spec (filepath_Ext w (pathWithExt w p)) "");
    [contradiction|reflexivity].
Qed.

(** *** What a successful run leaves in Config *)

Lemma checkConfig_Ok_inv (c : Configuration) :
  fst (checkConfig c) = Ok tt ->
  StackDirs c <> [] /\ TerraformDir c <> "" /\ StackNamePattern c <> "".
Proof.
  unfold checkConfig, bind, get, raise, ret.
  destruct (StackDirs c); simpl; [discriminate|].
  destruct (TerraformDir c); simpl; [discriminate|].
  destruct (StackNamePattern c); simpl; [discriminate|].
  intros _. repeat split; discriminate.
Qed.

Lemma ConvertPaths_length (w : World) (paths absPaths : list string) :
  u.ConvertPathsToAbsolutePaths w paths = Ok absPaths ->
  List.length absPaths = List.length paths.
Proof.
  revert absPaths. induction paths as [|p rest IH]; intros absPaths H; simpl in H.
  - injection H as <-. reflexivity.
  - destruct (filepath_Abs w p); simpl in H; [|discriminate].
    destruct (u.ConvertPathsToAbsolutePaths w rest) as [res|]; simpl in H;
      [|discriminate].
    injection H as <-. simpl. rewrite (IH res); reflexivity.
Qed.

(** X6.  When [InitConfig] returns no error, [Config] is complete and
    coherent: the three configured fields are not empty, the two
    absolute-path fields are the absolute forms of [StackDirs] (one per
    entry) and of [TerraformDir], and [StackConfigFiles] is the
    non-empty result of discovery over the absolute stack dirs. *)
Theorem InitConfig_success (w : World) :
  fst (InitConfig w Config0) = Ok tt ->
  let Config := snd (InitConfig w Config0) in
  StackDirs Config <> [] /\
  TerraformDir Config <> "" /\
  StackNamePattern Config <> "" /\
  u.ConvertPathsToAbsolutePaths w (StackDirs Config)
    = Ok (StackDirsAbsolutePaths Config) /\
  List.length (StackDirsAbsolutePaths Config) = List.length (StackDirs Config) /\
  filepath_Abs w (TerraformDir Config) = Ok (TerraformDirAbsolutePath Config) /\
  findAllStackConfigsInPaths w (StackDirsAbsolutePaths Config)
    = Ok (StackConfigFiles Config) /\
  StackConfigFiles Config <> [].
Proof.
  destruct (mergeSources w) as [v|e] eqn:Hv.
  2:{ rewrite (InitConfig_mergeSources_Err w Config0 Hv). discriminate. }
  rewrite (InitConfig_after_populate w Config0 Hv).
  set (c := populated w v Config0).
  destruct (fst (checkConfig c)) as [[]|e] eqn:Hc; [|discriminate].
  destruct (checkConfig_Ok_inv c Hc) as (Hsd & Htd & Hsp).
  destruct (u.ConvertPathsToAbsolutePaths w (StackDirs c)) as [absPaths|e] eqn:Ha.
  2:{ unfold normalizeAndDiscover, bind, lift, get. rewrite Ha. discriminate. }
  destruct (filepath_Abs w (TerraformDir c)) as [tf|e] eqn:Ht.
  2:{ unfold normalizeAndDiscover, bind, lift, get, put. rewrite Ha.
      cbn [TerraformDir set_StackDirsAbsolutePaths]. rewrite Ht. discriminate. }
  destruct (findAllStackConfigsInPaths w absPaths) as [found|e] eqn:Hf.
  2:{ unfold normalizeAndDiscover, bind, lift, get, put. rewrite Ha.
      cbn [TerraformDir set_StackDirsAbsolutePaths]. rewrite Ht, Hf. discriminate. }
  rewrite (normalizeAndDiscover_run w c Ha Ht Hf).
  destruct found as [|f fs]; [discriminate|].
  intros _. cbn.
  repeat split; try assumption; try discriminate.
  apply (ConvertPaths_length w _ Ha).
Qed.

Lemma InitConfig_success_witness :
  let Config := snd (InitConfig (Example.world Example.layered) Config0) in
  findAllStackConfigsInPaths (Example.world Example.layered)
    (StackDirsAbsolutePaths Config) = Ok (StackConfigFiles Config) /\
  StackConfigFiles Config <> [].
Proof.
  cbv zeta.
  destruct (InitConfig_success (Example.world Example.layered) eq_refl)
    as (_ & _ & _ & _ & _ & _ & Hf & Hne).
  exact (conj Hf Hne).
Defined.

(** *** Errors after validation *)

(** X7.  After a successful validation each later failure is returned
    as it is, and [Config] keeps what was written before it: nothing
    new when a stack dir cannot be made absolute, the absolute stack
    dirs when [TerraformDir] cannot, both absolute fields when the glob
    library rejects a pattern.  [StackConfigFiles] is written in none of
    these cases. *)
Theorem InitConfig_late_errors (w : World) (v : viper.Viper) (e : error) :
  mergeSources w = Ok v ->
  fst (checkConfig (populated w v Config0)) = Ok tt ->
  let Config := populated w v Config0 in
  (u.ConvertPathsToAbsolutePaths w (StackDirs Config) = Err e ->
   InitConfig w Config0 = (Err e, Config)) /\
  (forall absPaths,
      u.ConvertPathsToAbsolutePaths w (StackDirs Config) = Ok absPaths ->
      filepath_Abs w (TerraformDir Config) = Err e ->
      InitConfig w Config0 = (Err e, set_StackDirsAbsolutePaths absPaths Config)) /\
  (forall absPaths tf,
      u.ConvertPathsToAbsolutePaths w (StackDirs Config) = Ok absPaths ->
      filepath_Abs w (TerraformDir Config) = Ok tf ->
      findAllStackConfigsInPaths w absPaths = Err e ->
      InitConfig w Config0 =
      (Err e, set_TerraformDirAbsolutePath tf
                (set_StackDirsAbsolutePaths absPaths Config))).
Proof.
  intros Hv Hok Config.
  rewrite (InitConfig_after_populate w Config0 Hv), Hok. fold Config.
  unfold normalizeAndDiscover, bind, lift, get, put, raise, ret.
  refine (conj _ (conj _ _)).
  - intros Ha. rewrite Ha. reflexivity.
  - intros absPaths Ha Ht. rewrite Ha.
    cbn [TerraformDir set_StackDirsAbsolutePaths]. rewrite Ht. reflexivity.
  - intros absPaths tf Ha Ht Hf. rewrite Ha.
    cbn [TerraformDir set_StackDirsAbsolutePaths]. rewrite Ht, Hf. reflexivity.
Qed.

Lemma InitConfig_late_errors_witness :
  InitConfig (withStrictGlob
                (Example.world (Example.export "ATMOS_STACK_DIRS" "./[ab"
                                  Example.layered))) Config0
  = (Err "syntax error in pattern",
     mkConfiguration "sys-pattern" ["./[ab"] ["/work/[ab"] "./home-tf"
       "/work/home-tf" []).
Proof.
  exact (proj2 (proj2
    (@InitConfig_late_errors
       (withStrictGlob
          (Example.world (Example.export "ATMOS_STACK_DIRS" "./[ab" Example.layered)))
       (mkConfigMap (Some ["./cur/*"]) (Some "./home-tf") (Some "sys-pattern"))
       "syntax error in pattern" eq_refl eq_refl))
    ["/work/[ab"] "/work/home-tf" eq_refl eq_refl eq_refl).
Defined.

(** *** How many stack dirs an ENV var gives *)

Lemma strings_Split_length (s : string) (sep : ascii) :
  List.length (strings_Split s sep) = S (strings_Count s sep).
Proof.
  induction s as [|c s IH]; simpl; [reflexivity|].
  destruct (Ascii.eqb c sep); simpl.
  - rewrite IH. reflexivity.
  - destruct (strings_Split s sep); simpl in *; [discriminate|exact IH].
Qed.

(** X8.  A non-empty [ATMOS_STACK_DIRS] gives one stack dir more than it
    has commas: entries are never dropped, not even the empty ones
    around a leading, a trailing or a doubled comma. *)
Theorem processEnvVars_stack_dirs_count (w : World) (c : Configuration) :
  os_Getenv w "ATMOS_STACK_DIRS" <> "" ->
  List.length (StackDirs (snd (processEnvVars w c))) =
  S (strings_Count (os_Getenv w "ATMOS_STACK_DIRS") ",").
Proof.
  intros H. rewrite processEnvVars_populated. cbn [snd StackDirs].
  unfold envStackDirs. rewrite (envValue_set _ _ H). simpl.
  apply strings_Split_length.
Qed.

Lemma processEnvVars_stack_dirs_count_witness :
  List.length
    (StackDirs (snd (processEnvVars
                       (Example.world (Example.export "ATMOS_STACK_DIRS" ",a,,b,"
                                         Example.bare)) Config0))) = 5.
Proof.
  assert (Hne : ",a,,b," <> "") by discriminate.
  exact (@processEnvVars_stack_dirs_count
           (Example.world (Example.export "ATMOS_STACK_DIRS" ",a,,b," Example.bare))
           Config0 Hne).
Defined.

(** *** Reading a file twice *)

Lemma mergeKey_idem {A} (src tgt : option A) :
  viper.mergeKey src (viper.mergeKey src tgt) = viper.mergeKey src tgt.
Proof. destruct src; reflexivity. Qed.

(** X9.  Processing the same candidate file a second time changes
    nothing: the store after the first pass is the store after the
    second.  (The home-dir and the current-dir candidate are one file
    when atmos runs in [~/.atmos].) *)
Theorem processConfigFile_twice (w : World) (path : string) (v v' : viper.Viper) :
  processConfigFile w path v = Ok v' ->
  processConfigFile w path v' = Ok v'.
Proof.
  rewrite !processConfigFile_fileLayer.
  destruct (fileLayer w path) as [cfg|e]; simpl; [|discriminate].
  intros [= <-]. unfold viper.MergeConfigMap; simpl.
  rewrite !mergeKey_idem. reflexivity.
Qed.

Lemma processConfigFile_twice_witness :
  processConfigFile (Example.world Example.layered) "/home/dev/.atmos/atmos.yaml"
    (mkConfigMap (Some ["./home/*"]) (Some "./home-tf") (Some "environment-stage"))
  = Ok (mkConfigMap (Some ["./home/*"]) (Some "./home-tf") (Some "environment-stage")).
Proof.
  exact (@processConfigFile_twice (Example.world Example.layered)
           "/home/dev/.atmos/atmos.yaml" defaultConfig _ eq_refl).
Defined.
